(** * Verification model of the website research tool

    Shallow embedding of [web_scraper.py], [vector_db.py],
    [research_agent.py] and the try/finally block of [main.py].
    Python strings are [String.string]; the dictionaries the code passes
    around are association lists from keys to Python values; an exception
    is a [Raise] value of the [result] type. *)

From Stdlib Require Import String Ascii List Bool ZArith Lia.
From Stdlib Require Permutation.
Import ListNotations.
Open Scope string_scope.
Set Warnings "-register-all,-abstract-large-number".

(* ------------------------------------------------------------------ *)
(** ** Python values, exceptions and results *)

(** The values stored in the code's dictionaries: a [str] or [None]. *)
Inductive pyval : Type :=
| PStr (s : string)
| PNone.

(** [f"{v}"]: formatting a value. *)
Definition py_format (v : pyval) : string :=
  match v with
  | PStr s => s
  | PNone => "None"
  end.

(** The Python exceptions the modelled code can meet. [KeyboardInterrupt]
    is the one that is not a subclass of [Exception]. *)
Inductive exc : Type :=
| KeyError (key : string)
| TypeError (msg : string)
| IndexError (msg : string)
| AttributeError (msg : string)
| ConnectionError (msg : string)
| HTTPError (msg : string)
| DuplicateIDError (msg : string)
| NotFoundError (msg : string)
| RuntimeError (msg : string)
| ValueError (msg : string)
| KeyboardInterrupt.

(** [isinstance(e, Exception)]. *)
Definition is_Exception (e : exc) : bool :=
  match e with
  | KeyboardInterrupt => false
  | _ => true
  end.

(** [str(e)]. *)
Definition exc_str (e : exc) : string :=
  match e with
  | KeyError k => "'" ++ k ++ "'"
  | TypeError m | IndexError m | AttributeError m | ConnectionError m
  | HTTPError m | DuplicateIDError m | NotFoundError m | RuntimeError m
  | ValueError m => m
  | KeyboardInterrupt => EmptyString
  end.

(** A computation that returns a value or raises. *)
Inductive result (A : Type) : Type :=
| Ok (a : A)
| Raise (e : exc).
Arguments Ok {A} a.
Arguments Raise {A} e.

Definition rbind {A B} (m : result A) (k : A -> result B) : result B :=
  match m with
  | Ok a => k a
  | Raise e => Raise e
  end.

Notation "x <- m ;; k" := (rbind m (fun x => k))
  (at level 61, m at next level, right associativity).

(** A dictionary with string keys. *)
Definition dict := list (string * pyval).

(** [d[k]]: the first binding of [k]; [KeyError] when there is none. *)
Fixpoint getitem (d : dict) (k : string) : result pyval :=
  match d with
  | [] => Raise (KeyError k)
  | (k', v) :: d' => if String.eqb k k' then Ok v else getitem d' k
  end.

Definition keys (d : dict) : list string := map fst d.

(** [s[:n]] on a [str]. *)
Definition py_prefix (n : nat) (s : string) : string := substring 0 n s.

(** [v[:n]] on a dictionary value: slicing [None] raises [TypeError]. *)
Definition slice_prefix (n : nat) (v : pyval) : result string :=
  match v with
  | PStr s => Ok (py_prefix n s)
  | PNone => Raise (TypeError "'NoneType' object is not subscriptable")
  end.

(** [sep.join(ls)]. *)
Definition py_join (sep : string) (ls : list string) : string :=
  String.concat sep ls.

(** Decimal rendering of a non-negative integer, as [f"{n}"] prints it. *)
Fixpoint digits_aux (fuel : nat) (n : nat) (acc : string) : string :=
  match fuel with
  | O => acc
  | S fuel' =>
      let d := String (ascii_of_nat (48 + n mod 10)) EmptyString in
      if Nat.ltb n 10 then d ++ acc else digits_aux fuel' (n / 10) (d ++ acc)
  end.

Definition py_str_int (z : Z) : string :=
  if Z.ltb z 0 then "-" ++ digits_aux 20 (Z.to_nat (- z)) EmptyString
  else digits_aux 20 (Z.to_nat z) EmptyString.

(* ------------------------------------------------------------------ *)
(** ** Whitespace handling of Python [str] on ASCII text *)

(** [c.isspace()]: tab, newline, vertical tab, form feed, carriage return,
    the separators [\x1c]..[\x1f] and space. *)
Definition is_space (c : ascii) : bool :=
  let n := nat_of_ascii c in
  ((Nat.leb 9 n) && (Nat.leb n 13)) || ((Nat.leb 28 n) && (Nat.leb n 32)).

(** The characters [str.splitlines] breaks at ([\r\n] counts once). *)
Definition is_line_break (c : ascii) : bool :=
  let n := nat_of_ascii c in
  ((Nat.leb 10 n) && (Nat.leb n 13)) || ((Nat.leb 28 n) && (Nat.leb n 30)).

Definition CR : ascii := ascii_of_nat 13.
Definition LF : ascii := ascii_of_nat 10.

Fixpoint lstrip_chars (l : list ascii) : list ascii :=
  match l with
  | c :: l' => if is_space c then lstrip_chars l' else l
  | [] => []
  end.

(** [s.strip()]. *)
Definition py_strip (s : string) : string :=
  string_of_list_ascii
    (rev (lstrip_chars (rev (lstrip_chars (list_ascii_of_string s))))).

Fixpoint splitlines_aux (cur : list ascii) (l : list ascii)
  : list (list ascii) :=
  match l with
  | [] => match cur with [] => [] | _ => [rev cur] end
  | c :: l' =>
      if Ascii.eqb c CR then
        match l' with
        | c' :: l'' =>
            if Ascii.eqb c' LF then rev cur :: splitlines_aux [] l''
            else rev cur :: splitlines_aux [] l'
        | [] => rev cur :: splitlines_aux [] l'
        end
      else if is_line_break c then rev cur :: splitlines_aux [] l'
      else splitlines_aux (c :: cur) l'
  end.

(** [s.splitlines()]. *)
Definition py_splitlines (s : string) : list string :=
  map string_of_list_ascii (splitlines_aux [] (list_ascii_of_string s)).

Fixpoint split2_aux (cur : list ascii) (l : list ascii) : list (list ascii) :=
  match l with
  | [] => [rev cur]
  | c1 :: rest =>
      match rest with
      | c2 :: l' =>
          if Ascii.eqb c1 " "%char && Ascii.eqb c2 " "%char
          then rev cur :: split2_aux [] l'
          else split2_aux (c1 :: cur) rest
      | [] => split2_aux (c1 :: cur) rest
      end
  end.

(** [s.split("  ")] (separator: two spaces). *)
Definition py_split_2sp (s : string) : list string :=
  map string_of_list_ascii (split2_aux [] (list_ascii_of_string s)).

Definition nonempty (s : string) : bool :=
  match s with EmptyString => false | _ => true end.

(* ------------------------------------------------------------------ *)
(** ** The parsed page *)

(** A page as [BeautifulSoup(response.text, 'html.parser')] holds it:
    text nodes, comments and elements with their children. *)
Inductive node : Type :=
| Text (s : string)
| Comment (s : string)
| Elem (tag : string) (children : list node).

(** The [BeautifulSoup] object itself is the tag ["[document]"]. *)
Definition soup_of (body : list node) : node := Elem "[document]" body.

Definition is_script_or_style (t : string) : bool :=
  String.eqb t "script" || String.eqb t "style".

(** [for script in soup(["script", "style"]): script.decompose()]:
    every [script] and [style] element leaves the tree with its subtree. *)
Fixpoint decompose_node (n : node) : list node :=
  match n with
  | Elem t cs =>
      if is_script_or_style t then []
      else [Elem t (flat_map decompose_node cs)]
  | _ => [n]
  end.

Definition decompose_script_style (soup : node) : node :=
  match soup with
  | Elem t cs => Elem t (flat_map decompose_node cs)
  | _ => soup
  end.

(** [soup.find(name)]: the children of the first element with that tag in
    document order ([soup.title] is [soup.find("title")]). *)
Fixpoint find_tag (name : string) (n : node) : option (list node) :=
  match n with
  | Elem t cs =>
      if String.eqb t name then Some cs
      else
        (fix first (l : list node) : option (list node) :=
           match l with
           | [] => None
           | c :: l' =>
               match find_tag name c with
               | Some r => Some r
               | None => first l'
               end
           end) cs
  | _ => None
  end.

(** [tag.string]: the only child when it is a string, the only child's
    [.string] when it is a tag, [None] otherwise. [child_string c] is the
    [.string] of a tag whose only child is [c]. *)
Fixpoint child_string (c : node) : pyval :=
  match c with
  | Text s => PStr s
  | Comment s => PStr s
  | Elem _ cs =>
      match cs with
      | [c'] => child_string c'
      | _ => PNone
      end
  end.

Definition tag_string (cs : list node) : pyval :=
  match cs with
  | [c] => child_string c
  | _ => PNone
  end.

(** The tags whose strings [html.parser] builds with a special class
    ([TemplateString], [RubyTextString], [RubyParenthesisString]); the
    strings below such a tag get that class. *)
Definition is_string_container (t : string) : bool :=
  String.eqb t "template" || String.eqb t "rt" || String.eqb t "rp".

(** The strings [get_text] visits: text nodes in document order; comments
    and the strings under a string-container tag are not among its default
    string types. *)
Fixpoint node_strings (n : node) : list string :=
  match n with
  | Text s => [s]
  | Comment _ => []
  | Elem t cs =>
      if is_string_container t then [] else flat_map node_strings cs
  end.

(** [soup.get_text(separator=' ', strip=True)]. *)
Definition get_text (soup : node) : string :=
  py_join " " (filter nonempty (map py_strip (node_strings soup))).

(** The whitespace clean-up of [scrape_url]:
    [lines = (line.strip() for line in text.splitlines())],
    [chunks = (phrase.strip() for line in lines for phrase in line.split("  "))],
    [text = ' '.join(chunk for chunk in chunks if chunk)]. *)
Definition clean_whitespace (text : string) : string :=
  let lines := map py_strip (py_splitlines text) in
  let chunks := map py_strip (flat_map py_split_2sp lines) in
  py_join " " (filter nonempty chunks).

(* ------------------------------------------------------------------ *)
(** ** [WebScraper] *)

(** What [requests.get(url, headers=..., timeout=...)] yields: a
    transport-level exception (connection, DNS, timeout, too many
    redirects), or the final response with its status code, reason phrase
    and the body as [html.parser] parses it. *)
Inductive http_result : Type :=
| TransportError (msg : string)
| Response (status_code : Z) (reason : string) (body : list node).

(** [response.raise_for_status()] of [requests]: raises [HTTPError] for a
    status in [400, 500) or [500, 600), returns otherwise. *)
Definition raise_for_status (url : string) (code : Z) (reason : string)
  : result unit :=
  if Z.leb 400 code && Z.ltb code 500 then
    Raise (HTTPError (py_str_int code ++ " Client Error: " ++ reason
                      ++ " for url: " ++ url))
  else if Z.leb 500 code && Z.ltb code 600 then
    Raise (HTTPError (py_str_int code ++ " Server Error: " ++ reason
                      ++ " for url: " ++ url))
  else Ok tt.

(** The dictionary literal [{'url': ..., 'title': ..., 'content': ...}]. *)
Definition mk_doc (url : string) (title : pyval) (content : string) : dict :=
  [("url", PStr url); ("title", title); ("content", PStr content)].

Definition MAX_CONTENT : nat := 10000.

(** The body of the [try] block of [scrape_url]. *)
Definition scrape_try (url : string) (r : http_result) : result dict :=
  match r with
  | TransportError m => Raise (ConnectionError m)
  | Response code reason body =>
      _ <- raise_for_status url code reason ;;
      let soup := decompose_script_style (soup_of body) in
      let title :=
        match find_tag "title" soup with
        | Some cs => tag_string cs
        | None => PStr url
        end in
      let text := clean_whitespace (get_text soup) in
      Ok (mk_doc url title (py_prefix MAX_CONTENT text))
  end.

(** [WebScraper.scrape_url]: [except Exception as e] turns a failure into
    the error dictionary. *)
Definition scrape_url (url : string) (r : http_result) : result dict :=
  match scrape_try url r with
  | Ok d => Ok d
  | Raise e =>
      if is_Exception e then
        Ok (mk_doc url (PStr "Error") ("Failed to scrape: " ++ exc_str e))
      else Raise e
  end.

(** What the caller observes of [scrape_urls]: one request per URL and
    the [time.sleep(delay)] calls. *)
Inductive scrape_event : Type :=
| EvGet (url : string)
| EvSleep (delay : Z).

(** The loop of [WebScraper.scrape_urls]: [i] is the [enumerate] index,
    [n] is [len(urls)], [net i u] the response to the [i]-th request. The
    delay is kept as the caller passes it (milliseconds here). *)
Fixpoint scrape_loop (net : nat -> string -> http_result) (delay : Z)
         (n i : nat) (urls : list string)
  : result (list dict) * list scrape_event :=
  match urls with
  | [] => (Ok [], [])
  | u :: us =>
      match scrape_url u (net i u) with
      | Raise e => (Raise e, [EvGet u])
      | Ok d =>
          let ev := EvGet u ::
                    (if Z.ltb (Z.of_nat i) (Z.of_nat n - 1)
                     then [EvSleep delay] else []) in
          let '(r, evs) := scrape_loop net delay n (S i) us in
          ((ds <- r ;; Ok (d :: ds)), (ev ++ evs)%list)
      end
  end.

(** [WebScraper.scrape_urls(urls, delay)]. *)
Definition scrape_urls (net : nat -> string -> http_result) (delay : Z)
           (urls : list string) : result (list dict) * list scrape_event :=
  scrape_loop net delay (length urls) 0 urls.

(** The request pattern the batch operation is meant to follow: a pause
    between two successive requests, none after the last. *)
Fixpoint paced_trace (delay : Z) (urls : list string) : list scrape_event :=
  match urls with
  | [] => []
  | [u] => [EvGet u]
  | u :: us => EvGet u :: EvSleep delay :: paced_trace delay us
  end.

(** A custom induction principle for the nested type [node]. *)
Section node_induction.
Variable P : node -> Prop.
Hypothesis HText : forall s, P (Text s).
Hypothesis HComment : forall s, P (Comment s).
Hypothesis HElem : forall t cs, Forall P cs -> P (Elem t cs).

Fixpoint node_ind' (n : node) : P n :=
  match n with
  | Text s => HText s
  | Comment s => HComment s
  | Elem t cs =>
      HElem t cs
        ((fix go (l : list node) : Forall P l :=
            match l with
            | [] => Forall_nil P
            | c :: l' => Forall_cons c (node_ind' c) (go l')
            end) cs)
  end.
End node_induction.

(** A page whose [script] and [style] elements are emptied. *)
Fixpoint blank_script_style (n : node) : node :=
  match n with
  | Elem t cs =>
      if is_script_or_style t then Elem t []
      else Elem t (map blank_script_style cs)
  | _ => n
  end.

(* ------------------------------------------------------------------ *)
(** ** [VectorDatabase] over the backing collection *)

(** A record of the collection: id, indexed document, metadata. *)
Record record : Type := mk_record {
  rec_id : string;
  rec_document : string;
  rec_metadata : dict
}.

(** The collection, in insertion order. *)
Definition collection := list record.

Fixpoint has_dup (l : list string) : bool :=
  match l with
  | [] => false
  | x :: l' => existsb (String.eqb x) l' || has_dup l'
  end.

Definition id_present (c : collection) (i : string) : bool :=
  existsb (fun r => String.eqb (rec_id r) i) c.

Fixpoint result_map {A B} (f : A -> result B) (l : list A) : result (list B) :=
  match l with
  | [] => Ok []
  | x :: l' => y <- f x ;; ys <- result_map f l' ;; Ok (y :: ys)
  end.

(** An id or document handed to the backing store must be a [str]. *)
Definition as_str (what : string) (v : pyval) : result string :=
  match v with
  | PStr s => Ok s
  | PNone => Raise (ValueError ("Expected " ++ what ++ " to be a str, got None"))
  end.

(** A metadata value the backing store accepts: [str], [int], [float]
    or [bool]; of the values the code can produce, [None] is refused. *)
Definition meta_value_ok (v : pyval) : bool :=
  match v with
  | PStr _ => true
  | PNone => false
  end.

(** The metadata check of the backing store's [add]. *)
Fixpoint validate_metadatas (ms : list dict) : result unit :=
  match ms with
  | [] => Ok tt
  | m :: ms' =>
      if forallb (fun kv => meta_value_ok (snd kv)) m then validate_metadatas ms'
      else Raise (ValueError "Expected metadata value to be a str, int, float or bool, got None which is a <class 'NoneType'>")
  end.

(** [collection.add(documents=..., metadatas=..., ids=...)] of the backing
    store (chromadb 0.4 and later): ids repeated inside one call raise
    [DuplicateIDError]; then a metadata value that is not a [str], [int],
    [float] or [bool] raises [ValueError]; a record whose id is already in
    the collection is skipped with a warning ("Add of existing embedding
    ID"), the others are appended. *)
Definition collection_add (c : collection) (documents : list pyval)
           (metadatas : list dict) (ids : list pyval) : result collection :=
  ids' <- result_map (as_str "ID") ids ;;
  docs' <- result_map (as_str "document") documents ;;
  if has_dup ids' then
    Raise (DuplicateIDError "Expected IDs to be unique")
  else
    _ <- validate_metadatas metadatas ;;
    Ok (fold_left
          (fun acc '(i, (d, m)) =>
             if id_present acc i then acc else (acc ++ [mk_record i d m])%list)
          (combine ids' (combine docs' metadatas)) c).

(** [VectorDatabase.add_documents]. *)
Definition add_documents (c : collection) (documents : list dict)
  : result collection :=
  match documents with
  | [] => Ok c
  | _ =>
      ids <- result_map (fun doc => getitem doc "url") documents ;;
      contents <- result_map (fun doc => getitem doc "content") documents ;;
      metadatas <- result_map
                     (fun doc => t <- getitem doc "title" ;;
                                 u <- getitem doc "url" ;;
                                 Ok [("title", t); ("url", u)]) documents ;;
      collection_add c contents metadatas ids
  end.

(** The records stored under an id. *)
Definition entries_for (c : collection) (i : string) : list record :=
  filter (fun r => String.eqb (rec_id r) i) c.

(* ------------------------------------------------------------------ *)
(** ** [ResearchAgent] *)

Definition NL : string := String LF EmptyString.
Definition DQ : string := String (ascii_of_nat 34) EmptyString.

(** The Agent's view of the hosted service: the assistant it recorded at
    construction ([self.assistant], by id), the assistants the service
    still holds, and the log of delete requests sent. *)
Record agent_state : Type := mk_agent {
  assistant : option string;
  live : list string;
  deletes : list string
}.

(** [ResearchAgent.__init__] with [_create_assistant]: the key is the
    explicit argument if truthy, else the environment variable; a missing
    key raises [ValueError]; otherwise [client.beta.assistants.create]
    is called: [create] is what it does, either return the id of the new
    assistant, which the Agent records, or raise (an invalid key, a
    network error, ...), which propagates. *)
Definition agent_init (api_key env_key : option string) (create : result string)
           (remote : list string) : result agent_state :=
  let key := match api_key with
             | Some k => if nonempty k then Some k else env_key
             | None => env_key
             end in
  match key with
  | Some k =>
      if nonempty k then
        fresh_id <- create ;;
        Ok (mk_agent (Some fresh_id) (fresh_id :: remote) [])
      else Raise (ValueError "OpenAI API key not found. Set OPENAI_API_KEY environment variable.")
  | None => Raise (ValueError "OpenAI API key not found. Set OPENAI_API_KEY environment variable.")
  end.

(** [client.beta.assistants.delete(id)]: the request is sent; the service
    answers 404, raised as [NotFoundError], for an id it does not hold. *)
Definition assistants_delete (st : agent_state) (id : string)
  : result unit * agent_state :=
  let st' := mk_agent (assistant st) (remove string_dec id (live st))
                      (deletes st ++ [id])%list in
  if existsb (String.eqb id) (live st) then (Ok tt, st')
  else (Raise (NotFoundError ("No assistant found with id '" ++ id ++ "'.")), st').

(** [ResearchAgent.cleanup]: [if self.assistant: delete(self.assistant.id)];
    [self.assistant] is left as it is. *)
Definition cleanup (st : agent_state) : result unit * agent_state :=
  match assistant st with
  | Some id => assistants_delete st id
  | None => (Ok tt, st)
  end.

(** A part of a message's [content] list. *)
Inductive content_part : Type :=
| TextPart (value : string)
| ImagePart.

Record message : Type := mk_message {
  role : string;
  parts : list content_part
}.

(** What the service does with the thread of one request: the status
    [runs.create] reports, the statuses successive [runs.retrieve] calls
    report, and [messages.list(...).data]. *)
Record run_env : Type := mk_run_env {
  initial_status : string;
  polled_statuses : list string;
  thread_messages : list message
}.

Definition pending (status : string) : bool :=
  String.eqb status "queued" || String.eqb status "in_progress".

(** [while run.status in ['queued', 'in_progress']: time.sleep(1); run =
    retrieve(...)]: the status the loop exits on, or [None] while the
    observed statuses are all pending (the loop is still waiting). *)
Fixpoint wait_run (status : string) (polls : list string) : option string :=
  if pending status then
    match polls with
    | [] => None
    | s :: ps => wait_run s ps
    end
  else Some status.

(** [message.content[0].text.value]. *)
Definition first_text (m : message) : result string :=
  match parts m with
  | TextPart v :: _ => Ok v
  | ImagePart :: _ => Raise (AttributeError "'ImageFileContentBlock' object has no attribute 'text'")
  | [] => Raise (IndexError "list index out of range")
  end.

(** [for message in messages.data: if message.role == "assistant": return ...]:
    [None] when the loop finds no assistant message. *)
Fixpoint first_assistant_reply (msgs : list message) : option (result string) :=
  match msgs with
  | [] => None
  | m :: ms =>
      if String.eqb (role m) "assistant" then Some (first_text m)
      else first_assistant_reply ms
  end.

(** The user turn [generate_summary] posts. *)
Definition summary_prompt (content user_query : string) : string :=
  "Based on the following research query: " ++ DQ ++ user_query ++ DQ ++ NL ++ NL
  ++ "Please analyze and summarize the following content:" ++ NL ++ NL
  ++ content ++ NL ++ NL
  ++ "Provide a comprehensive summary that addresses the research query.".

Definition run_error (status : string) : string :=
  "Error: Assistant run status is " ++ status.

(** [ResearchAgent.generate_summary]; [remote] gives the service's
    behaviour on the posted prompt; [None] while the polling loop waits. *)
Definition generate_summary (remote : string -> run_env)
           (content user_query : string) : option (result string) :=
  let env := remote (summary_prompt content user_query) in
  match wait_run (initial_status env) (polled_statuses env) with
  | None => None
  | Some status =>
      if String.eqb status "completed" then
        match first_assistant_reply (thread_messages env) with
        | Some r => Some r
        | None => Some (Ok (run_error status))
        end
      else Some (Ok (run_error status))
  end.

Definition MAX_DOC_CHARS : nat := 2000.

(** [f"Source: {doc['title']} ({doc['url']})\n{doc['content'][:2000]}"]. *)
Definition doc_block (doc : dict) : result string :=
  t <- getitem doc "title" ;;
  u <- getitem doc "url" ;;
  c <- getitem doc "content" ;;
  c' <- slice_prefix MAX_DOC_CHARS c ;;
  Ok ("Source: " ++ py_format t ++ " (" ++ py_format u ++ ")" ++ NL ++ c').

(** [combined_content] of [generate_summary_from_documents]. *)
Definition combined_content (documents : list dict) : result string :=
  blocks <- result_map doc_block documents ;;
  Ok (py_join (NL ++ NL) blocks).

(** [ResearchAgent.generate_summary_from_documents]. *)
Definition generate_summary_from_documents (remote : string -> run_env)
           (documents : list dict) (user_query : string)
  : option (result string) :=
  match combined_content documents with
  | Ok c => generate_summary remote c user_query
  | Raise e => Some (Raise e)
  end.

(** The prompt body as the specification words it: per document
    ["Source: {title} ({url})\n{content truncated to 2000 chars}"], in
    input order, consecutive blocks separated by a blank line. *)
Definition spec_block (url : string) (title : pyval) (content : string)
  : string :=
  "Source: " ++ py_format title ++ " (" ++ url ++ ")" ++ NL
  ++ py_prefix 2000 content.

Fixpoint spec_prompt (docs : list (string * pyval * string)) : string :=
  match docs with
  | [] => EmptyString
  | [(u, t, c)] => spec_block u t c
  | (u, t, c) :: rest => spec_block u t c ++ NL ++ NL ++ spec_prompt rest
  end.

(* ------------------------------------------------------------------ *)
(** ** The coordinator: [ResearchTool.research_websites] driven by [main] *)

(** What the top-level run does, in order. *)
Inductive run_event : Type :=
| MInit
| MScrape
| MStore
| MSummarize
| MPrint (s : string)
| MCleanup.

(** Statements that print or call out and may raise, threading the list
    of events done so far. *)
Definition PyIO (A : Type) : Type := list run_event -> result A * list run_event.

Definition io_ret {A} (a : A) : PyIO A := fun tr => (Ok a, tr).

Definition io_bind {A B} (m : PyIO A) (k : A -> PyIO B) : PyIO B :=
  fun tr =>
    match m tr with
    | (Ok a, tr') => k a tr'
    | (Raise e, tr') => (Raise e, tr')
    end.

Notation "x <-- m ;; k" := (io_bind m (fun x => k))
  (at level 61, m at next level, right associativity).

(** An external call: it happens, then returns [o] or raises it. *)
Definition io_call {A} (ev : run_event) (o : result A) : PyIO A :=
  fun tr => (o, (tr ++ [ev])%list).

Definition io_print (s : string) : PyIO unit := io_call (MPrint s) (Ok tt).

(** [try: body except Exception as e: handler(e)]. *)
Definition io_try_except {A} (body : PyIO A) (handler : exc -> PyIO A) : PyIO A :=
  fun tr =>
    match body tr with
    | (Raise e, tr') => if is_Exception e then handler e tr' else (Raise e, tr')
    | res => res
    end.

(** [try: body finally: fin]: [fin] runs on every exit of [body]; an
    exception of [fin] replaces the outcome of [body]. *)
Definition io_try_finally {A} (body : PyIO A) (fin : PyIO unit) : PyIO A :=
  fun tr =>
    let '(r, tr') := body tr in
    match fin tr' with
    | (Ok _, tr'') => (r, tr'')
    | (Raise e, tr'') => (Raise e, tr'')
    end.

(** How each external stage of one run turns out: the scraper on the URLs,
    the store on the documents, the agent on documents and query, and
    [Agent.cleanup()]; each returns or raises, arbitrarily. *)
Record stage_outcomes : Type := mk_outcomes {
  o_scrape : list string -> result (list dict);
  o_store : list dict -> result unit;
  o_summary : list dict -> string -> result string;
  o_cleanup : result unit
}.

Definition banner (title : string) : PyIO unit := io_print title.

(** [ResearchTool.research_websites(urls, query)]. *)
Definition research_websites (o : stage_outcomes) (urls : list string)
           (query : string) : PyIO string :=
  _ <-- banner "STEP 1: Scraping websites..." ;;
  documents <-- io_call MScrape (o_scrape o urls) ;;
  _ <-- banner "STEP 2: Storing content in vector database..." ;;
  _ <-- io_call MStore (o_store o documents) ;;
  _ <-- banner "STEP 3: Generating summary with OpenAI Agent..." ;;
  summary <-- io_call MSummarize (o_summary o documents query) ;;
  io_ret summary.

(** [ResearchTool.cleanup()], i.e. [self.agent.cleanup()]. *)
Definition tool_cleanup (o : stage_outcomes) : PyIO unit :=
  io_call MCleanup (o_cleanup o).

(** The [try]/[except]/[finally] block of [main] on a list of URLs and a
    query. *)
Definition research_session (o : stage_outcomes) (urls : list string)
           (query : string) : PyIO unit :=
  io_try_finally
    (io_try_except
       (summary <-- research_websites o urls query ;;
        _ <-- banner "RESEARCH SUMMARY" ;;
        io_print summary)
       (fun e => io_print (NL ++ "Error during research: " ++ exc_str e)))
    (tool_cleanup o).

Definition example_urls : list string :=
  ["https://en.wikipedia.org/wiki/Artificial_intelligence";
   "https://en.wikipedia.org/wiki/Machine_learning"].

Definition example_query : string :=
  "What are the key concepts in AI and machine learning?".

(** [main()]: without an API key it prints and returns; otherwise it builds
    the [ResearchTool] (which may raise) and runs the session on the
    example URLs and query. *)
Definition main (env_key : option string) (o_init : result unit)
           (o : stage_outcomes) : PyIO unit :=
  match env_key with
  | Some k =>
      if nonempty k then
        _ <-- io_call MInit o_init ;;
        research_session o example_urls example_query
      else io_print (NL ++ "ERROR: OPENAI_API_KEY environment variable not set!")
  | None => io_print (NL ++ "ERROR: OPENAI_API_KEY environment variable not set!")
  end.

Definition is_cleanup (ev : run_event) : bool :=
  match ev with MCleanup => true | _ => false end.

(** How many times [Agent.cleanup()] was called in a run. *)
Definition cleanup_calls (tr : list run_event) : nat :=
  length (filter is_cleanup tr).

(** The document [scrape_url] builds from a url, a title and a content. *)
Definition doc_of (x : string * pyval * string) : dict :=
  let '(u, t, c) := x in mk_doc u t c.

(** Whether [requests] reports the request as failed: a transport error,
    or a response that [raise_for_status] rejects. *)
Definition request_fails (r : http_result) : bool :=
  match r with
  | TransportError _ => true
  | Response code _ _ => Z.leb 400 code && Z.ltb code 600
  end.

(* ------------------------------------------------------------------ *)
(** ** Spacing of the cleaned text *)

Definition is_sp (c : ascii) : bool := Ascii.eqb c " "%char.

(** No two consecutive space characters. *)
Fixpoint no_double_space (l : list ascii) : bool :=
  match l with
  | c1 :: l' =>
      match l' with
      | c2 :: _ => negb (is_sp c1 && is_sp c2) && no_double_space l'
      | [] => true
      end
  | [] => true
  end.

(** The first character, if any, is not whitespace. *)
Definition head_not_space (l : list ascii) : bool :=
  match l with
  | c :: _ => negb (is_space c)
  | [] => true
  end.

(** The last character, if any, is not whitespace. *)
Definition last_not_space (l : list ascii) : bool :=
  match l with
  | [] => true
  | _ => negb (is_space (last l " "%char))
  end.

Definition well_spaced (l : list ascii) : bool :=
  no_double_space l && head_not_space l && last_not_space l.

(* ------------------------------------------------------------------ *)
(** ** [VectorDatabase] over the store's client *)

(** The client's named collections. *)
Definition client := list (string * collection).

Fixpoint client_get (cl : client) (name : string) : option collection :=
  match cl with
  | [] => None
  | (n, c) :: cl' => if String.eqb n name then Some c else client_get cl' name
  end.

Definition client_set (cl : client) (name : string) (c : collection) : client :=
  (name, c) :: filter (fun p => negb (String.eqb (fst p) name)) cl.

(** [client.delete_collection(name)]: raises for an unknown name. *)
Definition client_delete (cl : client) (name : string) : result client :=
  match client_get cl name with
  | Some _ => Ok (filter (fun p => negb (String.eqb (fst p) name)) cl)
  | None => Raise (ValueError ("Collection " ++ name ++ " does not exist."))
  end.

(** [VectorDatabase._initialize_collection]: [get_collection], and on
    failure [create_collection] (a new, empty collection). *)
Definition initialize_collection (cl : client) (name : string) : client :=
  match client_get cl name with
  | Some _ => cl
  | None => client_set cl name []
  end.

(** A [VectorDatabase]: its client and [self.collection_name];
    [self.collection] is the client's collection of that name. *)
Record vector_db : Type := mk_vdb {
  vdb_client : client;
  vdb_name : string
}.

(** [VectorDatabase.__init__(collection_name)] on a client. *)
Definition vdb_init (cl : client) (name : string) : vector_db :=
  mk_vdb (initialize_collection cl name) name.

(** [self.collection]; [_initialize_collection] makes it exist. *)
Definition vdb_collection (db : vector_db) : collection :=
  match client_get (vdb_client db) (vdb_name db) with
  | Some c => c
  | None => []
  end.

(** [VectorDatabase.add_documents] on the object. *)
Definition vdb_add_documents (db : vector_db) (documents : list dict)
  : result vector_db :=
  c' <- add_documents (vdb_collection db) documents ;;
  Ok (mk_vdb (client_set (vdb_client db) (vdb_name db) c') (vdb_name db)).

(** [VectorDatabase.get_all_documents]: [collection.get()], its [ids],
    [documents] and [metadatas]. *)
Definition get_all_documents (db : vector_db)
  : list string * list string * list dict :=
  let c := vdb_collection db in
  (map rec_id c, map rec_document c, map rec_metadata c).

(** [VectorDatabase.reset_collection]. *)
Definition reset_collection (db : vector_db) : result vector_db :=
  cl <- client_delete (vdb_client db) (vdb_name db) ;;
  Ok (mk_vdb (initialize_collection cl (vdb_name db)) (vdb_name db)).

(* ------------------------------------------------------------------ *)
(** ** [cli.py] *)

(** The URL loop of [get_user_input]: [url = input("> ").strip()] until an
    empty line; [None] when the input ends first ([EOFError]). *)
Fixpoint read_urls (lines : list string) : option (list string) :=
  match lines with
  | [] => None
  | l :: ls =>
      let url := py_strip l in
      if nonempty url then option_map (cons url) (read_urls ls) else Some []
  end.

(** [cli.get_user_input] on the lines typed: [None] when the input ends
    ([EOFError]), [Some None] for [(None, None)], [Some (Some (q, us))]
    for [(query, urls)]. *)
Definition get_user_input (lines : list string)
  : option (option (string * list string)) :=
  match lines with
  | [] => None
  | l :: ls =>
      let query := py_strip l in
      if negb (nonempty query) then Some None
      else
        match read_urls ls with
        | None => None
        | Some [] => Some None
        | Some urls => Some (Some (query, urls))
        end
  end.

(** The [try]/[except]/[finally] block of [cli.main]. *)
Definition cli_session (o : stage_outcomes) (urls : list string)
           (query : string) : PyIO unit :=
  io_try_finally
    (io_try_except
       (_ <-- banner "Scraping websites..." ;;
        documents <-- io_call MScrape (o_scrape o urls) ;;
        _ <-- banner "Storing content in vector database..." ;;
        _ <-- io_call MStore (o_store o documents) ;;
        _ <-- banner "Generating summary with OpenAI Agent..." ;;
        summary <-- io_call MSummarize (o_summary o documents query) ;;
        _ <-- banner "RESEARCH SUMMARY" ;;
        _ <-- io_print (NL ++ "Query: " ++ query ++ NL) ;;
        io_print summary)
       (fun e => io_print (NL ++ "Error during research: " ++ exc_str e)))
    (tool_cleanup o).

(** [cli.main]: [None] when reading the input raises [EOFError] (nothing
    is built then). Building the scraper, the store and the agent is the
    [MInit] call, which may raise. The prompts of [get_user_input], the
    ["Starting research"] line and the hint lines after the missing-key
    error are prints that are not recorded. *)
Definition cli_main (env_key : option string) (lines : list string)
           (o_init : result unit) (o : stage_outcomes)
  : option (result unit * list run_event) :=
  match env_key with
  | Some k =>
      if nonempty k then
        match get_user_input lines with
        | None => None
        | Some None => Some (Ok tt, [])
        | Some (Some (query, urls)) =>
            Some ((_ <-- io_call MInit o_init ;;
                   cli_session o urls query) [])
        end
      else Some (io_print (NL ++ "ERROR: OPENAI_API_KEY environment variable not set!") [])
  | None => Some (io_print (NL ++ "ERROR: OPENAI_API_KEY environment variable not set!") [])
  end.

(* ------------------------------------------------------------------ *)
(** ** Helpers for the store's properties *)

(** One step of the [fold_left] in [collection_add]. *)
Definition add_step (acc : collection) (x : string * (string * dict))
  : collection :=
  let '(i, (d, m)) := x in
  if id_present acc i then acc else (acc ++ [mk_record i d m])%list.

(** The record [add_documents] stores for the document [doc_of x]. *)
Definition rec_of (x : string * pyval * string) : record :=
  let '(u, t, c) := x in mk_record u c [("title", t); ("url", PStr u)].

Definition doc_url (x : string * pyval * string) : string :=
  let '(u, _, _) := x in u.

Definition doc_title (x : string * pyval * string) : pyval :=
  let '(_, t, _) := x in t.

(* ------------------------------------------------------------------ *)
(** ** Helpers for the coordinators' properties *)

(** The three external stages of a run. *)
Definition is_stage (ev : run_event) : bool :=
  match ev with MScrape | MStore | MSummarize => true | _ => false end.

(** [os.getenv('OPENAI_API_KEY')] is truthy. *)
Definition key_set (env_key : option string) : bool :=
  match env_key with Some k => nonempty k | None => false end.

Definition result_ok {A} (r : result A) : bool :=
  match r with Ok _ => true | Raise _ => false end.

(* ================================================================== *)
(** * Properties *)

Example scrape_url_test_page :
  scrape_url "https://example.com"
    (Response 200 "OK"
       [Elem "html" [Elem "head" [Elem "title" [Text "Test Page"]];
                     Elem "body" [Elem "p" [Text "Test content"]]]])
  = Ok (mk_doc "https://example.com" (PStr "Test Page")
               "Test Page Test content").
Proof. vm_compute. reflexivity. Qed.

Example clean_whitespace_ex :
  clean_whitespace (" a  b" ++ NL ++ "  c   d ") = "a b c d".
Proof. vm_compute. reflexivity. Qed.

(** ** Slicing *)

Lemma py_prefix_length (n : nat) (s : string) :
  String.length (py_prefix n s) <= n.
Proof.
  unfold py_prefix. revert n.
  induction s as [|a s IH]; intros [|n]; simpl; try lia.
  specialize (IH n). lia.
Qed.

Lemma py_prefix_short (n : nat) (s : string) :
  String.length s <= n -> py_prefix n s = s.
Proof.
  unfold py_prefix. revert n.
  induction s as [|a s IH]; intros [|n] H; simpl in *;
    try lia; try reflexivity.
  rewrite IH by lia. reflexivity.
Qed.

Lemma py_prefix_is_prefix (n : nat) (s : string) :
  String.prefix (py_prefix n s) s = true.
Proof.
  unfold py_prefix. revert n.
  induction s as [|a s IH]; intros [|n]; simpl; auto.
  destruct (ascii_dec a a) as [_|C]; [apply IH | contradiction].
Qed.

(** ** Shape of the documents [scrape_url] returns *)

Ltac z_cases code :=
  destruct (Z.leb_spec 400 code), (Z.ltb_spec code 500),
           (Z.leb_spec 500 code), (Z.ltb_spec code 600).

Lemma raise_for_status_fails (url reason : string) (code : Z) :
  Z.leb 400 code && Z.ltb code 600 = true ->
  exists m, raise_for_status url code reason = Raise (HTTPError m).
Proof.
  unfold raise_for_status. z_cases code; simpl; intros Hc; try discriminate;
    try lia; eauto.
Qed.

Lemma raise_for_status_passes (url reason : string) (code : Z) :
  Z.leb 400 code && Z.ltb code 600 = false ->
  raise_for_status url code reason = Ok tt.
Proof.
  unfold raise_for_status. z_cases code; simpl; intros Hc; try discriminate;
    try lia; reflexivity.
Qed.

(** On a response [raise_for_status] lets through, the [try] block
    returns the document built from the page. *)
Lemma scrape_try_page (url reason : string) (code : Z) (body : list node) :
  Z.leb 400 code && Z.ltb code 600 = false ->
  scrape_try url (Response code reason body) =
  Ok (let soup := decompose_script_style (soup_of body) in
      mk_doc url
        (match find_tag "title" soup with
         | Some cs => tag_string cs
         | None => PStr url
         end)
        (py_prefix MAX_CONTENT (clean_whitespace (get_text soup)))).
Proof.
  intros H. simpl. rewrite raise_for_status_passes by exact H. reflexivity.
Qed.

Lemma scrape_url_shape (url : string) (r : http_result) :
  exists t c, scrape_url url r = Ok (mk_doc url t c).
Proof.
  unfold scrape_url. destruct r as [m|code reason body].
  - simpl. eauto.
  - destruct (Z.leb 400 code && Z.ltb code 600) eqn:E.
    + destruct (raise_for_status_fails url reason code E) as [m Hm].
      simpl. rewrite Hm. simpl. eauto.
    + rewrite scrape_try_page by exact E. eauto.
Qed.

(** ** Fetch failures *)

Lemma scrape_url_failed (url : string) (r : http_result) :
  request_fails r = true ->
  exists msg,
    scrape_url url r = Ok (mk_doc url (PStr "Error") ("Failed to scrape: " ++ msg)).
Proof.
  intros Hf. unfold scrape_url. destruct r as [m|code reason body].
  - exists m. reflexivity.
  - simpl in Hf. destruct (raise_for_status_fails url reason code Hf) as [m Hm].
    exists m. simpl. rewrite Hm. reflexivity.
Qed.

(** C2 (amended): for every URL whose request raises a transport error or
    whose response has a 4xx or 5xx status, [scrape_url] does not raise: it
    returns the document with url equal to the input URL, title ["Error"]
    and content ["Failed to scrape: "] followed by the exception's text.
    A response with any other status, 2xx or not (a 3xx that is not
    followed, a non-standard 999), passes [raise_for_status] and is
    processed as a successful fetch: the page is parsed, the title is the
    page's [title] string or the URL, and the content is the page's
    cleaned text cut to 10000 characters. *)
Theorem scrape_url_failure_document (url : string) :
  (forall r, request_fails r = true ->
   exists msg,
     scrape_url url r = Ok (mk_doc url (PStr "Error") ("Failed to scrape: " ++ msg))) /\
  (forall code reason body,
   Z.leb 400 code && Z.ltb code 600 = false ->
   scrape_url url (Response code reason body) =
   Ok (let soup := decompose_script_style (soup_of body) in
       mk_doc url
         (match find_tag "title" soup with
          | Some cs => tag_string cs
          | None => PStr url
          end)
         (py_prefix MAX_CONTENT (clean_whitespace (get_text soup))))).
Proof.
  split.
  - apply scrape_url_failed.
  - intros code reason body H. unfold scrape_url.
    rewrite scrape_try_page by exact H. reflexivity.
Qed.

Lemma scrape_url_failure_document_witness :
  request_fails (Response 503 "Service Unavailable" []) = true /\
  (exists msg,
    scrape_url "https://example.com" (Response 503 "Service Unavailable" []) =
    Ok (mk_doc "https://example.com" (PStr "Error") ("Failed to scrape: " ++ msg))) /\
  Z.leb 400 302 && Z.ltb 302 600 = false /\
  scrape_url "https://example.com"
    (Response 302 "Found" [Elem "html" [Elem "title" [Text "Moved"];
                                        Elem "body" [Text "See  other"]]]) =
  Ok (mk_doc "https://example.com" (PStr "Moved") "Moved See other").
Proof.
  split; [reflexivity|]. split.
  - apply (proj1 (scrape_url_failure_document "https://example.com")). reflexivity.
  - split; [reflexivity|].
    rewrite (proj2 (scrape_url_failure_document "https://example.com") 302%Z "Found"
               [Elem "html" [Elem "title" [Text "Moved"]; Elem "body" [Text "See  other"]]]
               eq_refl).
    vm_compute. reflexivity.
Defined.

(** C2 (counterexample): a non-2xx status outside 4xx/5xx, here the 999
    some sites send to scrapers, passes [raise_for_status]: the page is
    parsed as a success and the title is not ["Error"]. *)
Lemma scrape_url_status_999_not_error :
  exists d,
    scrape_url "https://www.linkedin.com/in/someone"
      (Response 999 "Request denied"
         [Elem "html" [Elem "body" [Text "Request denied"]]]) = Ok d /\
    getitem d "title" <> Ok (PStr "Error").
Proof.
  eexists. split; [vm_compute; reflexivity|].
  vm_compute. intros H. discriminate H.
Qed.

(** ** The fields of a document *)

(** C3 (amended): every document [scrape_url] returns is a dictionary with
    exactly the keys [url], [title] and [content]; it has no status field,
    so reading one raises [KeyError]. A failed fetch is marked only by its
    title ["Error"] and its content beginning with ["Failed to scrape: "]. *)
Theorem scrape_url_keys (url : string) (r : http_result) :
  exists d,
    scrape_url url r = Ok d /\
    keys d = ["url"; "title"; "content"] /\
    getitem d "status" = Raise (KeyError "status") /\
    (request_fails r = true ->
     getitem d "title" = Ok (PStr "Error") /\
     exists msg, getitem d "content" = Ok (PStr ("Failed to scrape: " ++ msg))).
Proof.
  destruct (request_fails r) eqn:Hf.
  - destruct (scrape_url_failed url r Hf) as [m H].
    exists (mk_doc url (PStr "Error") ("Failed to scrape: " ++ m)).
    split; [exact H|]. split; [reflexivity|]. split; [reflexivity|].
    intros _. split; [reflexivity|]. exists m. reflexivity.
  - destruct (scrape_url_shape url r) as [t [c H]].
    exists (mk_doc url t c). split; [exact H|]. split; [reflexivity|].
    split; [reflexivity|]. intros E. discriminate E.
Qed.

Lemma scrape_url_keys_witness :
  request_fails (TransportError "Connection refused") = true /\
  exists d,
    scrape_url "https://example.com" (TransportError "Connection refused") = Ok d /\
    getitem d "title" = Ok (PStr "Error") /\
    exists msg, getitem d "content" = Ok (PStr ("Failed to scrape: " ++ msg)).
Proof.
  split; [reflexivity|].
  destruct (scrape_url_keys "https://example.com" (TransportError "Connection refused"))
    as [d [H1 [_ [_ H4]]]].
  exists d. split; [exact H1|]. apply H4. reflexivity.
Defined.

(** C3 (counterexample): the document of a failed fetch carries no
    status field. *)
Lemma scrape_url_failed_has_no_status :
  exists d,
    scrape_url "https://unreachable.invalid"
      (TransportError "Failed to resolve 'unreachable.invalid'") = Ok d /\
    ~ In "status" (keys d).
Proof.
  eexists. split; [reflexivity|].
  simpl. intros [H|[H|[H|H]]]; easy.
Qed.

(** ** Successful fetches *)

(** The content of a fetched page is at most [MAX_CONTENT] characters. *)
Lemma scrape_url_content_bounded (url reason : string) (code : Z)
      (body : list node) :
  Z.leb 400 code && Z.ltb code 600 = false ->
  exists t c,
    scrape_url url (Response code reason body) = Ok (mk_doc url t c) /\
    String.length c <= 10000.
Proof.
  intros H. unfold scrape_url. rewrite scrape_try_page by exact H.
  do 2 eexists. split; [reflexivity|]. apply py_prefix_length.
Qed.

Lemma flat_map_decompose_blank (cs : list node) :
  Forall (fun n => decompose_node (blank_script_style n) = decompose_node n) cs ->
  flat_map decompose_node (map blank_script_style cs) =
  flat_map decompose_node cs.
Proof.
  induction 1 as [|c cs Hc _ IH]; simpl; [reflexivity|].
  rewrite Hc, IH. reflexivity.
Qed.

Lemma decompose_blank (n : node) :
  decompose_node (blank_script_style n) = decompose_node n.
Proof.
  induction n as [s|s|t cs IH] using node_ind'; simpl; try reflexivity.
  destruct (is_script_or_style t) eqn:E; simpl; rewrite E; [reflexivity|].
  rewrite flat_map_decompose_blank by exact IH. reflexivity.
Qed.

(** The text inside [script] and [style] elements has no influence on the
    document: emptying those elements changes neither title nor content. *)
Lemma scrape_url_ignores_script_style (url : string) (code : Z)
      (reason : string) (body : list node) :
  scrape_url url (Response code reason (map blank_script_style body)) =
  scrape_url url (Response code reason body).
Proof.
  unfold scrape_url, scrape_try, soup_of, decompose_script_style.
  rewrite flat_map_decompose_blank; [reflexivity|].
  apply Forall_forall. intros n _. apply decompose_blank.
Qed.

(** C4 (code bug): a page whose [title] element is empty gets the title
    [None] (what [soup.title.string] gives for a childless tag), neither
    the declared, empty, title nor the URL. *)
Theorem scrape_url_empty_title_is_none :
  scrape_url "https://example.com"
    (Response 200 "OK"
       [Elem "html" [Elem "head" [Elem "title" []];
                     Elem "body" [Elem "p" [Text "Test content"]]]])
  = Ok (mk_doc "https://example.com" PNone "Test content").
Proof. vm_compute. reflexivity. Qed.

(** ** The batch loop *)

Lemma scrape_loop_spec (net : nat -> string -> http_result) (delay : Z)
      (us : list string) :
  forall i n, i + length us = n ->
  exists docs,
    scrape_loop net delay n i us = (Ok docs, paced_trace delay us) /\
    map (fun d => getitem d "url") docs = map (fun u => Ok (PStr u)) us.
Proof.
  induction us as [|u us IH]; intros i n Hn.
  - exists []. split; reflexivity.
  - simpl in Hn. simpl.
    destruct (scrape_url_shape u (net i u)) as [t [c Hd]]. rewrite Hd.
    destruct (IH (S i) n ltac:(lia)) as [docs [Hl Hm]]. rewrite Hl.
    exists (mk_doc u t c :: docs). split.
    + destruct us as [|u' us'].
      * simpl in Hn. replace (Z.ltb (Z.of_nat i) (Z.of_nat n - 1)) with false
          by (symmetry; apply Z.ltb_ge; lia). reflexivity.
      * simpl in Hn. replace (Z.ltb (Z.of_nat i) (Z.of_nat n - 1)) with true
          by (symmetry; apply Z.ltb_lt; lia). reflexivity.
    + simpl. rewrite Hm. reflexivity.
Qed.

(** C5: [scrape_urls] returns one document per input URL, in input order,
    with url equal to the input URL (repeated URLs are fetched and kept
    each time), and the requests and pauses it makes are exactly: a
    request per URL, a pause between two successive requests, none after
    the last. *)
Theorem scrape_urls_order_and_pacing (net : nat -> string -> http_result)
        (delay : Z) (urls : list string) :
  exists docs,
    scrape_urls net delay urls = (Ok docs, paced_trace delay urls) /\
    length docs = length urls /\
    map (fun d => getitem d "url") docs = map (fun u => Ok (PStr u)) urls.
Proof.
  destruct (scrape_loop_spec net delay urls 0 (length urls) eq_refl)
    as [docs [Hl Hm]].
  exists docs. split; [exact Hl|]. split; [|exact Hm].
  rewrite <- (length_map (fun d => getitem d "url") docs), Hm, length_map.
  reflexivity.
Qed.

Example scrape_urls_repeated :
  fst (scrape_urls (fun _ _ => TransportError "timed out") 1000
         ["https://a"; "https://a"; "https://b"]) =
  Ok [mk_doc "https://a" (PStr "Error") "Failed to scrape: timed out";
      mk_doc "https://a" (PStr "Error") "Failed to scrape: timed out";
      mk_doc "https://b" (PStr "Error") "Failed to scrape: timed out"].
Proof. reflexivity. Qed.

(** ** The store *)

Lemma entries_for_absent (c : collection) (i : string) :
  id_present c i = false -> entries_for c i = [].
Proof.
  induction c as [|r c IH]; simpl; [reflexivity|].
  intros H. apply orb_false_iff in H as [H1 H2].
  rewrite H1. apply IH, H2.
Qed.

Lemma id_present_app (c d : collection) (i : string) :
  id_present (c ++ d)%list i = id_present c i || id_present d i.
Proof. unfold id_present. apply existsb_app. Qed.

Lemma entries_for_app (c d : collection) (i : string) :
  entries_for (c ++ d)%list i = (entries_for c i ++ entries_for d i)%list.
Proof. unfold entries_for. apply filter_app. Qed.

Lemma add_one_document (c : collection) (u : string) (t : pyval)
      (content : string) :
  add_documents c [mk_doc u t content] =
  if meta_value_ok t then
    Ok (if id_present c u then c
        else (c ++ [mk_record u content [("title", t); ("url", PStr u)]])%list)
  else Raise (ValueError "Expected metadata value to be a str, int, float or bool, got None which is a <class 'NoneType'>").
Proof. destruct t; reflexivity. Qed.

(** C6 (amended): adding a document whose id is already in the collection
    never replaces the stored entry: whatever its title and content, a
    call that returns leaves the collection as it was. So after two
    [add_documents] calls with the same id (and titles the store accepts),
    starting from a collection without it, exactly one entry is stored
    under that id and it holds the content (and metadata) of the first
    call. *)
Theorem add_documents_first_write_wins (c : collection) (u : string)
        (t1 t2 c1 c2 : string) :
  (forall c0 t x c',
     id_present c0 u = true ->
     add_documents c0 [mk_doc u t x] = Ok c' -> c' = c0) /\
  (id_present c u = false ->
   exists c',
     (c0 <- add_documents c [mk_doc u (PStr t1) c1] ;;
      add_documents c0 [mk_doc u (PStr t2) c2]) = Ok c' /\
     entries_for c' u = [mk_record u c1 [("title", PStr t1); ("url", PStr u)]]).
Proof.
  split.
  - intros c0 t x c' Hp. rewrite add_one_document, Hp.
    destruct (meta_value_ok t); intros H; [injection H as <-; reflexivity | discriminate].
  - intros Ha. rewrite add_one_document, Ha. cbn [rbind meta_value_ok].
    rewrite add_one_document, id_present_app, Ha.
    unfold id_present at 1. simpl. rewrite String.eqb_refl. simpl.
    eexists. split; [reflexivity|].
    rewrite entries_for_app, entries_for_absent by exact Ha.
    simpl. rewrite String.eqb_refl. reflexivity.
Qed.

Lemma add_documents_first_write_wins_witness :
  (id_present [mk_record "https://x" "first" []] "https://x" = true /\
   add_documents [mk_record "https://x" "first" []]
     [mk_doc "https://x" (PStr "X") "second"] = Ok [mk_record "https://x" "first" []] /\
   [mk_record "https://x" "first" []] = [mk_record "https://x" "first" []]) /\
  (id_present [] "https://x" = false /\
   exists c',
     (c0 <- add_documents [] [mk_doc "https://x" (PStr "X") "first"] ;;
      add_documents c0 [mk_doc "https://x" (PStr "X") "second"]) = Ok c' /\
     entries_for c' "https://x" =
       [mk_record "https://x" "first" [("title", PStr "X"); ("url", PStr "https://x")]]).
Proof.
  split.
  - split; [reflexivity|]. split; [reflexivity|].
    apply (proj1 (add_documents_first_write_wins [] "https://x" "X" "X" "first" "second")
             [mk_record "https://x" "first" []] (PStr "X") "second"); reflexivity.
  - split; [reflexivity|].
    apply (proj2 (add_documents_first_write_wins [] "https://x" "X" "X" "first" "second")).
    reflexivity.
Defined.

(** C6 (counterexample): after adding ["https://x"] with content
    ["first"] and then with content ["second"], the entry under
    ["https://x"] does not hold ["second"]. *)
Lemma add_documents_second_not_kept :
  ~ exists c',
      (c0 <- add_documents [] [mk_doc "https://x" (PStr "X") "first"] ;;
       add_documents c0 [mk_doc "https://x" (PStr "X") "second"]) = Ok c' /\
      map rec_document (entries_for c' "https://x") = ["second"].
Proof.
  intros [c' [H1 H2]]. vm_compute in H1. injection H1 as <-.
  vm_compute in H2. discriminate H2.
Qed.

(** ** The combined prompt *)

Lemma doc_block_doc (u : string) (t : pyval) (c : string) :
  doc_block (mk_doc u t c) = Ok (spec_block u t c).
Proof. reflexivity. Qed.

Lemma blocks_of_docs (docs : list (string * pyval * string)) :
  result_map doc_block (map doc_of docs) =
  Ok (map (fun x => let '(u, t, c) := x in spec_block u t c) docs).
Proof.
  induction docs as [|[[u t] c] docs IH]; [reflexivity|].
  cbn [map result_map doc_of]. rewrite doc_block_doc, IH. reflexivity.
Qed.

Lemma join_blocks (docs : list (string * pyval * string)) :
  py_join (NL ++ NL)
    (map (fun x => let '(u, t, c) := x in spec_block u t c) docs) =
  spec_prompt docs.
Proof.
  induction docs as [|[[u t] c] docs IH]; [reflexivity|].
  destruct docs as [|[[u' t'] c'] docs]; [reflexivity|].
  unfold py_join in *. cbn [map] in *.
  change (String.concat (NL ++ NL)
            (spec_block u t c :: spec_block u' t' c'
               :: map (fun x => let '(u, t, c) := x in spec_block u t c) docs))
    with (spec_block u t c ++ (NL ++ NL) ++
          String.concat (NL ++ NL)
            (spec_block u' t' c'
               :: map (fun x => let '(u, t, c) := x in spec_block u t c) docs)).
  rewrite IH. reflexivity.
Qed.

(** C7: for documents with url [u], title [t] and content [c], the
    combined prompt body is, in input order, the blocks
    ["Source: {t} ({u})\n" ++ c[:2000]] separated by a blank line; the
    embedded content is a prefix of [c] of at most 2000 characters, and
    all of [c] when [c] has at most 2000 characters. *)
Theorem combined_content_spec (docs : list (string * pyval * string)) :
  combined_content (map doc_of docs) = Ok (spec_prompt docs) /\
  (forall c : string,
     String.length (py_prefix MAX_DOC_CHARS c) <= 2000 /\
     String.prefix (py_prefix MAX_DOC_CHARS c) c = true /\
     (String.length c <= 2000 -> py_prefix MAX_DOC_CHARS c = c)).
Proof.
  split.
  - unfold combined_content. rewrite blocks_of_docs. cbn [rbind].
    rewrite join_blocks. reflexivity.
  - intros c. split; [apply py_prefix_length|].
    split; [apply py_prefix_is_prefix|]. apply py_prefix_short.
Qed.

Lemma combined_content_spec_witness :
  combined_content (map doc_of [("https://a", PStr "A", "alpha");
                                ("https://b", PNone, "beta")]) =
  Ok ("Source: A (https://a)" ++ NL ++ "alpha" ++ NL ++ NL ++
      "Source: None (https://b)" ++ NL ++ "beta") /\
  py_prefix MAX_DOC_CHARS "alpha" = "alpha".
Proof.
  destruct (combined_content_spec [("https://a", PStr "A", "alpha");
                                   ("https://b", PNone, "beta")]) as [H1 H2].
  split.
  - rewrite H1. reflexivity.
  - apply (H2 "alpha"). simpl. lia.
Defined.

(** ** Agent cleanup *)

Lemma existsb_removed (id : string) (l : list string) :
  existsb (String.eqb id) (remove string_dec id l) = false.
Proof.
  induction l as [|x l IH]; simpl; [reflexivity|].
  destruct (string_dec id x) as [->|Hne]; [exact IH|].
  simpl. rewrite IH. apply String.eqb_neq in Hne. rewrite Hne. reflexivity.
Qed.

(** C8 (amended): construction either raises or records the assistant
    the service created, so [cleanup] never meets an Agent without one;
    each call of [cleanup] sends a
    delete request for the recorded id and leaves the record in place, so
    a second call sends a second delete of the same id, which the service
    rejects with [NotFoundError]. *)
Theorem cleanup_repeats_delete (id : string) (remote dels : list string) :
  (forall api_key env_key create st,
     agent_init api_key env_key create remote = Ok st ->
     exists fresh, create = Ok fresh /\ assistant st = Some fresh) /\
  let st := mk_agent (Some id) remote dels in
  snd (cleanup st) = mk_agent (Some id) (remove string_dec id remote)
                              (dels ++ [id])%list /\
  cleanup (snd (cleanup st)) =
    (Raise (NotFoundError ("No assistant found with id '" ++ id ++ "'.")),
     mk_agent (Some id)
       (remove string_dec id (remove string_dec id remote))
       (dels ++ [id; id])%list).
Proof.
  split.
  - intros api_key env_key create st. unfold agent_init.
    destruct api_key as [k|]; destruct env_key as [k'|]; intros H;
      repeat (simpl in H;
              match type of H with
              | context [if ?b then _ else _] => destruct b
              end);
      simpl in H; try discriminate;
      (destruct create as [fresh|e]; simpl in H; [|discriminate];
       injection H as <-; exists fresh; split; reflexivity).
  - simpl. unfold cleanup, assistants_delete. simpl.
    split; [destruct (existsb (String.eqb id) remote); reflexivity|].
    destruct (existsb (String.eqb id) remote); simpl;
      rewrite existsb_removed, <- app_assoc; reflexivity.
Qed.

Lemma cleanup_repeats_delete_witness :
  agent_init None (Some "sk-test") (Ok "asst_1") [] =
    Ok (mk_agent (Some "asst_1") ["asst_1"] []) /\
  exists fresh, Ok "asst_1" = Ok fresh /\
    assistant (mk_agent (Some "asst_1") ["asst_1"] []) = Some fresh.
Proof.
  split; [reflexivity|].
  apply (proj1 (cleanup_repeats_delete "asst_1" [] []) None (Some "sk-test")).
  reflexivity.
Defined.

(** C8 (counterexample): on the Agent built with assistant ["asst_1"], a
    second [cleanup] after a successful one sends another delete request
    and raises. *)
Lemma cleanup_twice_not_noop :
  exists st,
    agent_init None (Some "sk-test") (Ok "asst_1") [] = Ok st /\
    fst (cleanup st) = Ok tt /\
    deletes (snd (cleanup (snd (cleanup st)))) <> deletes (snd (cleanup st)) /\
    fst (cleanup (snd (cleanup st))) <> Ok tt.
Proof.
  eexists. split; [reflexivity|].
  vm_compute. split; [reflexivity|]. split; intros H; discriminate H.
Qed.

(** ** Summaries *)

Lemma wait_run_terminal (s f : string) (ps : list string) :
  wait_run s ps = Some f -> pending f = false.
Proof.
  revert s. induction ps as [|p ps IH]; intros s; simpl;
    destruct (pending s) eqn:E; try discriminate.
  - intros H. injection H as <-. exact E.
  - apply IH.
  - intros H. injection H as <-. exact E.
Qed.

(** C9: when the polling loop ends on a status other than ["completed"],
    [generate_summary] returns, without raising, the string
    ["Error: Assistant run status is " ++ status]: a [str] like any
    summary; that status is terminal for the loop. *)
Theorem generate_summary_non_completed (remote : string -> run_env)
        (content user_query status : string) :
  let env := remote (summary_prompt content user_query) in
  wait_run (initial_status env) (polled_statuses env) = Some status ->
  status <> "completed" ->
  pending status = false /\
  generate_summary remote content user_query =
    Some (Ok ("Error: Assistant run status is " ++ status)).
Proof.
  simpl. intros Hw Hne. split; [exact (wait_run_terminal _ _ _ Hw)|].
  unfold generate_summary. rewrite Hw.
  apply String.eqb_neq in Hne. rewrite Hne. reflexivity.
Qed.

Lemma generate_summary_non_completed_witness :
  generate_summary
    (fun _ => mk_run_env "queued" ["in_progress"; "failed"] [])
    "text" "query" =
  Some (Ok "Error: Assistant run status is failed").
Proof.
  apply (proj2 (generate_summary_non_completed
                  (fun _ => mk_run_env "queued" ["in_progress"; "failed"] [])
                  "text" "query" "failed" eq_refl
                  ltac:(intros H; discriminate H))).
Defined.

Lemma first_assistant_reply_none (msgs : list message) :
  Forall (fun m => role m <> "assistant") msgs ->
  first_assistant_reply msgs = None.
Proof.
  induction 1 as [|m ms Hm _ IH]; simpl; [reflexivity|].
  apply String.eqb_neq in Hm. rewrite Hm. exact IH.
Qed.

(** C10: when the run completes but no message of the thread is authored
    by the assistant, [generate_summary] does not raise and returns the
    diagnostic ["Error: Assistant run status is completed"]. *)
Theorem generate_summary_completed_without_reply (remote : string -> run_env)
        (content user_query : string) :
  let env := remote (summary_prompt content user_query) in
  wait_run (initial_status env) (polled_statuses env) = Some "completed" ->
  Forall (fun m => role m <> "assistant") (thread_messages env) ->
  generate_summary remote content user_query =
    Some (Ok "Error: Assistant run status is completed").
Proof.
  simpl. intros Hw Hm. unfold generate_summary. rewrite Hw.
  simpl. rewrite first_assistant_reply_none by exact Hm. reflexivity.
Qed.

Lemma generate_summary_completed_without_reply_witness :
  generate_summary
    (fun p => mk_run_env "queued" ["completed"] [mk_message "user" [TextPart p]])
    "text" "query" =
  Some (Ok "Error: Assistant run status is completed").
Proof.
  apply (generate_summary_completed_without_reply
           (fun p => mk_run_env "queued" ["completed"] [mk_message "user" [TextPart p]])
           "text" "query" eq_refl).
  constructor; [intros H; discriminate H | constructor].
Defined.

(** ** The coordinator *)

(** C1: whatever each stage does (the scraper, the store and the agent
    each return or raise, [Exception] or not, and so may [cleanup]
    itself), the [try]/[except]/[finally] block of [main] around
    [research_websites(urls, query)] calls [Agent.cleanup()] exactly once,
    and that call is the last thing the block does before it returns or
    propagates. *)
Theorem research_session_cleans_up_once (o : stage_outcomes)
        (urls : list string) (query : string) :
  let tr := snd (research_session o urls query []) in
  cleanup_calls tr = 1 /\ last tr MInit = MCleanup.
Proof.
  unfold research_session, io_try_finally, io_try_except, research_websites,
    tool_cleanup, banner, io_print, io_bind, io_call, io_ret.
  destruct (o_scrape o urls) as [docs|e1];
    [destruct (o_store o docs) as [[]|e2];
     [destruct (o_summary o docs query) as [s|e3]|]|];
    repeat match goal with
           | |- context [if is_Exception ?e then _ else _] =>
               destruct (is_Exception e)
           end;
    destruct (o_cleanup o); simpl; split; reflexivity.
Qed.

Example research_session_store_raises :
  snd (research_session
         (mk_outcomes (fun _ => Ok []) (fun _ => Raise (RuntimeError "db down"))
                      (fun _ _ => Ok "summary") (Ok tt))
         ["https://a"] "q" []) =
  [MPrint "STEP 1: Scraping websites..."; MScrape;
   MPrint "STEP 2: Storing content in vector database..."; MStore;
   MPrint (NL ++ "Error during research: db down"); MCleanup].
Proof. reflexivity. Qed.

(* ================================================================== *)
(** * Further properties of the code *)

(** ** Spacing of the cleaned text *)

Lemma space_is_sp (c : ascii) : is_sp c = true -> is_space c = true.
Proof.
  unfold is_sp. intros H. apply Ascii.eqb_eq in H. subst. reflexivity.
Qed.

Lemma not_space_not_sp (c : ascii) : is_space c = false -> is_sp c = false.
Proof.
  intros H. destruct (is_sp c) eqn:E; [|reflexivity].
  apply space_is_sp in E. congruence.
Qed.

Lemma no_double_space_cons2 (x y : ascii) (l : list ascii) :
  no_double_space (x :: y :: l) =
  negb (is_sp x && is_sp y) && no_double_space (y :: l).
Proof. reflexivity. Qed.

Lemma no_double_space_app_inv (a b : list ascii) :
  no_double_space (a ++ b) = true ->
  no_double_space a = true /\ no_double_space b = true.
Proof.
  induction a as [|x a IH]; [simpl; auto|].
  destruct a as [|y a].
  - destruct b as [|z b]; [auto|]. simpl app.
    rewrite no_double_space_cons2. intros H.
    apply andb_true_iff in H as [_ H]. auto.
  - simpl app. rewrite no_double_space_cons2. intros H.
    apply andb_true_iff in H as [H1 H2].
    destruct (IH H2) as [Ha Hb].
    rewrite no_double_space_cons2, H1, Ha. auto.
Qed.

Lemma no_double_space_snoc (a : list ascii) (c : ascii) :
  no_double_space a = true ->
  (a = [] \/ negb (is_sp (last a " "%char) && is_sp c) = true) ->
  no_double_space (a ++ [c]) = true.
Proof.
  induction a as [|x a IH]; intros H Hl; [reflexivity|].
  destruct a as [|y a].
  - simpl in *. destruct Hl as [Hl|Hl]; [discriminate|]. rewrite Hl. reflexivity.
  - simpl app. rewrite no_double_space_cons2.
    rewrite no_double_space_cons2 in H. apply andb_true_iff in H as [H1 H2].
    rewrite H1. simpl andb. apply IH; [exact H2|].
    destruct Hl as [Hl|Hl]; [discriminate|]. right. exact Hl.
Qed.

Lemma no_double_space_sep (a b : list ascii) :
  no_double_space a = true -> no_double_space b = true ->
  last_not_space a = true -> head_not_space b = true ->
  no_double_space (a ++ " "%char :: b) = true.
Proof.
  assert (Hsp : forall b, no_double_space b = true -> head_not_space b = true ->
                no_double_space (" "%char :: b) = true).
  { intros [|y b'] Hb Hhb; [reflexivity|].
    simpl in Hhb. apply negb_true_iff, not_space_not_sp in Hhb.
    rewrite no_double_space_cons2, Hhb, andb_false_r. exact Hb. }
  induction a as [|x a IH]; intros Ha Hb Hla Hhb.
  - apply Hsp; assumption.
  - destruct a as [|y a].
    + simpl in Hla. apply negb_true_iff, not_space_not_sp in Hla.
      simpl app. rewrite no_double_space_cons2, Hla. apply Hsp; assumption.
    + simpl app. rewrite no_double_space_cons2.
      rewrite no_double_space_cons2 in Ha. apply andb_true_iff in Ha as [H1 H2].
      rewrite H1. simpl andb. apply IH; assumption.
Qed.

Lemma lstrip_suffix (l : list ascii) : exists p, l = (p ++ lstrip_chars l)%list.
Proof.
  induction l as [|c l [p Hp]]; [exists []; reflexivity|].
  simpl. destruct (is_space c); [exists (c :: p); simpl; congruence|].
  exists []; reflexivity.
Qed.

Lemma lstrip_head (l : list ascii) : head_not_space (lstrip_chars l) = true.
Proof.
  induction l as [|c l IH]; [reflexivity|].
  simpl. destruct (is_space c) eqn:E; [exact IH|]. simpl. rewrite E. reflexivity.
Qed.

Lemma last_not_space_nonempty (l : list ascii) :
  l <> [] -> last_not_space l = negb (is_space (last l " "%char)).
Proof. destruct l; [congruence|reflexivity]. Qed.

(** [s.strip()] cuts a piece out of [s] whose ends are not whitespace. *)
Lemma py_strip_spec (s : string) :
  (exists p q, list_ascii_of_string s =
               (p ++ list_ascii_of_string (py_strip s) ++ q)%list) /\
  head_not_space (list_ascii_of_string (py_strip s)) = true /\
  last_not_space (list_ascii_of_string (py_strip s)) = true.
Proof.
  unfold py_strip. rewrite list_ascii_of_string_of_list_ascii.
  set (L := list_ascii_of_string s).
  destruct (lstrip_suffix L) as [p Hp].
  set (m := lstrip_chars L) in *.
  destruct (lstrip_suffix (rev m)) as [q Hq].
  set (r := lstrip_chars (rev m)) in *.
  assert (Hm : m = (rev r ++ rev q)%list).
  { rewrite <- rev_app_distr, <- Hq, rev_involutive. reflexivity. }
  split; [|split].
  - exists p, (rev q). rewrite Hp at 1. rewrite Hm. reflexivity.
  - destruct (rev r) as [|c t] eqn:E; [reflexivity|].
    pose proof (lstrip_head L) as Hh. fold m in Hh. rewrite Hm in Hh.
    exact Hh.
  - pose proof (lstrip_head (rev m)) as Hh. fold r in Hh.
    destruct r as [|c t]; [reflexivity|].
    rewrite last_not_space_nonempty.
    + simpl rev. rewrite last_last. exact Hh.
    + simpl. intros H. destruct (rev t); discriminate.
Qed.

Lemma push_no_double_space (cur : list ascii) (c : ascii) :
  no_double_space (rev cur) = true ->
  match cur with c0 :: _ => negb (is_sp c0 && is_sp c) | [] => true end = true ->
  no_double_space (rev (c :: cur)) = true.
Proof.
  intros H Hp. simpl. apply no_double_space_snoc; [exact H|].
  destruct cur as [|c0 cur]; [left; reflexivity|].
  right. simpl. rewrite last_last. exact Hp.
Qed.

(** No piece of [s.split("  ")] holds two consecutive spaces. *)
Lemma split2_pieces (n : nat) :
  forall l cur, length l <= n ->
  no_double_space (rev cur) = true ->
  match cur, l with
  | c0 :: _, c :: _ => negb (is_sp c0 && is_sp c)
  | _, _ => true
  end = true ->
  Forall (fun p => no_double_space p = true) (split2_aux cur l).
Proof.
  induction n as [|n IH]; intros l cur Hlen Hcur Hpair.
  - destruct l; [|simpl in Hlen; lia]. simpl. auto.
  - destruct l as [|c1 rest]; [simpl; auto|].
    simpl in Hlen. simpl.
    destruct rest as [|c2 l'].
    + apply IH; [simpl; lia| |destruct cur; reflexivity].
      apply push_no_double_space; [exact Hcur|].
      destruct cur; exact Hpair.
    + destruct (Ascii.eqb c1 " "%char && Ascii.eqb c2 " "%char) eqn:E.
      * constructor; [exact Hcur|].
        apply IH; [simpl in Hlen; lia|reflexivity|reflexivity].
      * apply IH; [simpl in Hlen |- *; lia| |].
        -- apply push_no_double_space; [exact Hcur|].
           destruct cur; exact Hpair.
        -- unfold is_sp. rewrite E. reflexivity.
Qed.

Lemma py_split_2sp_pieces (s : string) :
  Forall (fun p => no_double_space (list_ascii_of_string p) = true)
         (py_split_2sp s).
Proof.
  unfold py_split_2sp. apply Forall_map.
  eapply Forall_impl; [|apply (split2_pieces (length (list_ascii_of_string s)));
                        [lia|reflexivity|reflexivity]].
  intros p H. simpl. rewrite list_ascii_of_string_of_list_ascii. exact H.
Qed.

Lemma list_ascii_of_string_app (a b : string) :
  list_ascii_of_string (a ++ b) =
  (list_ascii_of_string a ++ list_ascii_of_string b)%list.
Proof. induction a as [|c a IH]; simpl; [reflexivity|]. rewrite IH. reflexivity. Qed.

Lemma well_spaced_iff (l : list ascii) :
  well_spaced l = true <->
  no_double_space l = true /\ head_not_space l = true /\ last_not_space l = true.
Proof.
  unfold well_spaced. rewrite !andb_true_iff. tauto.
Qed.

Lemma last_app_nonempty (a b : list ascii) (d : ascii) :
  b <> [] -> last (a ++ b) d = last b d.
Proof.
  intros Hb. induction a as [|x a IH]; [reflexivity|].
  rewrite <- app_comm_cons, <- IH.
  destruct (a ++ b)%list eqn:E; [|reflexivity].
  apply app_eq_nil in E. tauto.
Qed.

(** Joining non-empty well-spaced strings with one space gives a
    well-spaced string. *)
Lemma join_well_spaced (ss : list string) :
  Forall (fun s => nonempty s = true /\
                   well_spaced (list_ascii_of_string s) = true) ss ->
  well_spaced (list_ascii_of_string (py_join " " ss)) = true /\
  (ss <> [] -> list_ascii_of_string (py_join " " ss) <> []).
Proof.
  induction 1 as [|s ss [Hne Hs] Hall IH]; [split; [reflexivity|congruence]|].
  destruct ss as [|s' ss].
  - split; [exact Hs|]. intros _. destruct s; [discriminate|simpl; congruence].
  - unfold py_join in *.
    change (String.concat " " (s :: s' :: ss))
      with (s ++ " " ++ String.concat " " (s' :: ss)).
    destruct IH as [Hr Hrne]. specialize (Hrne ltac:(congruence)).
    rewrite list_ascii_of_string_app.
    change (list_ascii_of_string (" " ++ String.concat " " (s' :: ss)))
      with (" "%char :: list_ascii_of_string (String.concat " " (s' :: ss))).
    set (lr := list_ascii_of_string (String.concat " " (s' :: ss))) in *.
    set (ls := list_ascii_of_string s) in *.
    assert (Hls : ls <> []) by (subst ls; destruct s; [discriminate|simpl; congruence]).
    apply well_spaced_iff in Hs as [Hs1 [Hs2 Hs3]].
    apply well_spaced_iff in Hr as [Hr1 [Hr2 Hr3]].
    split.
    + apply well_spaced_iff. split; [|split].
      * apply no_double_space_sep; assumption.
      * destruct ls; [congruence|exact Hs2].
      * rewrite last_not_space_nonempty by (destruct ls; simpl; congruence).
        rewrite last_app_nonempty by congruence.
        rewrite last_not_space_nonempty in Hr3 by exact Hrne.
        clearbody lr. destruct lr as [|c lr']; [congruence|]. exact Hr3.
    + intros _. destruct ls; simpl; congruence.
Qed.

(** The text [scrape_url] builds from a page's strings never starts or ends
    with whitespace and never holds two consecutive spaces. *)
Theorem clean_whitespace_well_spaced (text : string) :
  well_spaced (list_ascii_of_string (clean_whitespace text)) = true.
Proof.
  unfold clean_whitespace.
  apply join_well_spaced. apply Forall_forall.
  intros x Hx. apply filter_In in Hx as [Hx Hne]. split; [exact Hne|].
  apply in_map_iff in Hx as [p [<- Hp]].
  apply in_flat_map in Hp as [line [_ Hp]].
  pose proof (proj1 (Forall_forall _ _) (py_split_2sp_pieces line) p Hp) as Hd.
  destruct (py_strip_spec p) as [[pre [suf Hps]] [Hh Hl]].
  apply well_spaced_iff. split; [|split; assumption].
  cbv beta in Hd. rewrite Hps in Hd.
  apply no_double_space_app_inv in Hd as [_ Hd].
  apply no_double_space_app_inv in Hd as [Hd _]. exact Hd.
Qed.




(** ** The batch: each document comes from its own request *)

Lemma scrape_loop_docs (net : nat -> string -> http_result) (delay : Z)
      (n : nat) (us : list string) :
  forall i0,
  exists docs,
    fst (scrape_loop net delay n i0 us) = Ok docs /\
    length docs = length us /\
    forall j u, nth_error us j = Some u ->
      exists d, nth_error docs j = Some d /\ scrape_url u (net (i0 + j) u) = Ok d.
Proof.
  induction us as [|u us IH]; intros i0.
  - exists []. split; [reflexivity|]. split; [reflexivity|].
    intros [|j] u H; discriminate.
  - simpl. destruct (scrape_url_shape u (net i0 u)) as [t [c Hd]]. rewrite Hd.
    destruct (IH (S i0)) as [docs [Hl [Hlen Hj]]].
    destruct (scrape_loop net delay n (S i0) us) as [r evs]. simpl in Hl. subst r.
    exists (mk_doc u t c :: docs). split; [reflexivity|].
    split; [simpl; congruence|].
    intros [|j] u' H; simpl in H.
    + injection H as <-. exists (mk_doc u t c). rewrite Nat.add_0_r. auto.
    + destruct (Hj j u' H) as [d [Hn Hs]]. exists d. split; [exact Hn|].
      rewrite Nat.add_succ_r. exact Hs.
Qed.

(** [scrape_urls] isolates the URLs from each other: the [j]-th document
    is what [scrape_url] makes of the [j]-th URL and the response to the
    [j]-th request alone, so a failing URL affects only its own entry. *)
Theorem scrape_urls_per_url (net : nat -> string -> http_result) (delay : Z)
        (urls : list string) :
  exists docs,
    fst (scrape_urls net delay urls) = Ok docs /\
    length docs = length urls /\
    forall j u, nth_error urls j = Some u ->
      exists d, nth_error docs j = Some d /\ scrape_url u (net j u) = Ok d.
Proof.
  destruct (scrape_loop_docs net delay (length urls) urls 0) as [docs [H1 [H2 H3]]].
  exists docs. split; [exact H1|]. split; [exact H2|]. exact H3.
Qed.

(** The documents of [scrape_urls] are dictionary literals built from each
    input URL. *)
Lemma scrape_urls_docs_of (net : nat -> string -> http_result) (delay : Z)
      (urls : list string) :
  exists ts,
    fst (scrape_urls net delay urls) = Ok (map doc_of ts) /\
    map (fun x => let '(u, _, _) := x in u) ts = urls.
Proof.
  unfold scrape_urls. generalize (length urls) 0.
  induction urls as [|u us IH]; intros n i.
  - exists []. split; reflexivity.
  - simpl. destruct (scrape_url_shape u (net i u)) as [t [c Hd]]. rewrite Hd.
    destruct (IH n (S i)) as [ts [Hl Hm]].
    destruct (scrape_loop net delay n (S i) us) as [r evs]. simpl in Hl. subst r.
    exists ((u, t, c) :: ts). split; [reflexivity|]. simpl. rewrite Hm. reflexivity.
Qed.

(** ** The store *)

Lemma collection_add_fold (c : collection) (documents : list pyval)
      (metadatas : list dict) (ids : list pyval) :
  collection_add c documents metadatas ids =
  (ids' <- result_map (as_str "ID") ids ;;
   docs' <- result_map (as_str "document") documents ;;
   if has_dup ids' then Raise (DuplicateIDError "Expected IDs to be unique")
   else (_ <- validate_metadatas metadatas ;;
         Ok (fold_left add_step (combine ids' (combine docs' metadatas)) c))).
Proof. reflexivity. Qed.

Lemma fold_add_step_app (l : list (string * (string * dict))) :
  forall acc, exists extra, fold_left add_step l acc = (acc ++ extra)%list.
Proof.
  induction l as [|[i [d m]] l IH]; intros acc; cbn [fold_left].
  - exists []. symmetry. apply app_nil_r.
  - destruct (IH (add_step acc (i, (d, m)))) as [extra He]. rewrite He.
    simpl. destruct (id_present acc i).
    + exists extra. reflexivity.
    + exists ([mk_record i d m] ++ extra)%list. symmetry. apply app_assoc.
Qed.

Lemma id_present_false_not_in (c : collection) (i : string) :
  id_present c i = false -> ~ In i (map rec_id c).
Proof.
  intros H Hin. apply in_map_iff in Hin as [r [<- Hr]].
  assert (existsb (fun r' => String.eqb (rec_id r') (rec_id r)) c = true) as Hc.
  { apply existsb_exists. exists r. split; [exact Hr|]. apply String.eqb_refl. }
  unfold id_present in H. congruence.
Qed.

Lemma fold_add_step_nodup (l : list (string * (string * dict))) :
  forall acc, NoDup (map rec_id acc) ->
  NoDup (map rec_id (fold_left add_step l acc)).
Proof.
  induction l as [|[i [d m]] l IH]; intros acc Hacc; cbn [fold_left]; [exact Hacc|].
  apply IH. simpl. destruct (id_present acc i) eqn:Hp; [exact Hacc|].
  rewrite map_app. simpl.
  apply (Permutation.Permutation_NoDup (Permutation.Permutation_cons_append _ _)).
  constructor; [apply id_present_false_not_in, Hp | exact Hacc].
Qed.

Lemma fold_add_step_fresh (l : list (string * (string * dict))) :
  forall acc,
  NoDup (map fst l) ->
  Forall (fun i => id_present acc i = false) (map fst l) ->
  fold_left add_step l acc =
  (acc ++ map (fun x => let '(i, (d, m)) := x in mk_record i d m) l)%list.
Proof.
  induction l as [|[i [d m]] l IH]; intros acc Hnd Hf; cbn [fold_left map].
  - symmetry. apply app_nil_r.
  - simpl in Hnd, Hf. inversion Hnd as [|? ? Hni Hnd']; subst.
    inversion Hf as [|? ? Hi Hf']; subst. unfold add_step at 2. rewrite Hi.
    rewrite IH; [rewrite <- app_assoc; reflexivity | exact Hnd' |].
    apply Forall_forall. intros j Hj.
    rewrite id_present_app, (proj1 (Forall_forall _ _) Hf' j Hj). simpl.
    destruct (String.eqb i j) eqn:E; [|reflexivity].
    apply String.eqb_eq in E. subst. contradiction.
Qed.

(** [add_documents] only ever appends to the collection, and it never
    makes two records share an id: after a successful call the old
    collection is a prefix of the new one, and ids that were unique
    stay unique. *)
Theorem add_documents_append_only (c c' : collection) (docs : list dict) :
  add_documents c docs = Ok c' ->
  (exists extra, c' = (c ++ extra)%list) /\
  (NoDup (map rec_id c) -> NoDup (map rec_id c')).
Proof.
  unfold add_documents. destruct docs as [|d ds].
  - intros H. injection H as <-. split; [exists []; symmetry; apply app_nil_r | auto].
  - destruct (result_map (fun doc => getitem doc "url") (d :: ds)); [|discriminate]; cbn [rbind].
    destruct (result_map (fun doc => getitem doc "content") (d :: ds)); [|discriminate]; cbn [rbind].
    destruct (result_map _ (d :: ds)); [|discriminate]; cbn [rbind].
    rewrite collection_add_fold.
    destruct (result_map (as_str "ID") _); [|discriminate]; cbn [rbind].
    destruct (result_map (as_str "document") _); [|discriminate]; cbn [rbind].
    destruct (has_dup _); [discriminate|].
    destruct (validate_metadatas _); [|discriminate]; cbn [rbind].
    intros H. injection H as <-. split.
    + apply fold_add_step_app.
    + apply fold_add_step_nodup.
Qed.

Lemma add_documents_append_only_witness :
  add_documents [mk_record "a" "old" []] [mk_doc "u" (PStr "U") "x"; mk_doc "a" (PStr "A") "new"] =
    Ok [mk_record "a" "old" []; mk_record "u" "x" [("title", PStr "U"); ("url", PStr "u")]] /\
  (exists extra, [mk_record "a" "old" []; mk_record "u" "x" [("title", PStr "U"); ("url", PStr "u")]] =
                 ([mk_record "a" "old" []] ++ extra)%list) /\
  (NoDup (map rec_id [mk_record "a" "old" []]) ->
   NoDup (map rec_id [mk_record "a" "old" []; mk_record "u" "x" [("title", PStr "U"); ("url", PStr "u")]])).
Proof.
  assert (H : add_documents [mk_record "a" "old" []] [mk_doc "u" (PStr "U") "x"; mk_doc "a" (PStr "A") "new"] =
    Ok [mk_record "a" "old" []; mk_record "u" "x" [("title", PStr "U"); ("url", PStr "u")]]) by reflexivity.
  split; [exact H|].
  exact (add_documents_append_only _ _ _ H).
Defined.

Lemma result_map_doc_of_url (ts : list (string * pyval * string)) :
  result_map (fun doc => getitem doc "url") (map doc_of ts) =
  Ok (map (fun x => PStr (doc_url x)) ts).
Proof. induction ts as [|[[u t] c] ts IH]; simpl; [reflexivity|]. rewrite IH. reflexivity. Qed.

Lemma result_map_doc_of_content (ts : list (string * pyval * string)) :
  result_map (fun doc => getitem doc "content") (map doc_of ts) =
  Ok (map (fun x => let '(_, _, c) := x in PStr c) ts).
Proof. induction ts as [|[[u t] c] ts IH]; simpl; [reflexivity|]. rewrite IH. reflexivity. Qed.

Lemma result_map_doc_of_meta (ts : list (string * pyval * string)) :
  result_map (fun doc => t <- getitem doc "title" ;;
                         u <- getitem doc "url" ;;
                         Ok [("title", t); ("url", u)]) (map doc_of ts) =
  Ok (map (fun x => rec_metadata (rec_of x)) ts).
Proof. induction ts as [|[[u t] c] ts IH]; simpl; [reflexivity|]. rewrite IH. reflexivity. Qed.

Lemma result_map_as_str_url (what : string) (ts : list (string * pyval * string)) :
  result_map (as_str what) (map (fun x => PStr (doc_url x)) ts) = Ok (map doc_url ts).
Proof. induction ts as [|x ts IH]; simpl; [reflexivity|]. rewrite IH. reflexivity. Qed.

Lemma result_map_as_str_content (what : string) (ts : list (string * pyval * string)) :
  result_map (as_str what) (map (fun x => let '(_, _, c) := x in PStr c) ts) =
  Ok (map (fun x => rec_document (rec_of x)) ts).
Proof. induction ts as [|[[u t] c] ts IH]; simpl; [reflexivity|]. rewrite IH. reflexivity. Qed.

Lemma combine_doc_of (ts : list (string * pyval * string)) :
  combine (map doc_url ts)
          (combine (map (fun x => rec_document (rec_of x)) ts)
                   (map (fun x => rec_metadata (rec_of x)) ts)) =
  map (fun x => (doc_url x, (rec_document (rec_of x), rec_metadata (rec_of x)))) ts.
Proof. induction ts as [|x ts IH]; simpl; [reflexivity|]. rewrite IH. reflexivity. Qed.

Lemma validate_metadatas_doc_of (ts : list (string * pyval * string)) :
  Forall (fun x => meta_value_ok (doc_title x) = true) ts ->
  validate_metadatas (map (fun x => rec_metadata (rec_of x)) ts) = Ok tt.
Proof.
  induction 1 as [|[[u t] c] ts Hx Hts IH]; [reflexivity|].
  simpl in Hx |- *. rewrite Hx. exact IH.
Qed.

(** [add_documents] on documents built by [scrape_url]. *)
Lemma add_documents_doc_of (c : collection) (ts : list (string * pyval * string)) :
  ts <> [] ->
  add_documents c (map doc_of ts) =
  if has_dup (map doc_url ts) then Raise (DuplicateIDError "Expected IDs to be unique")
  else _ <- validate_metadatas (map (fun x => rec_metadata (rec_of x)) ts) ;;
       Ok (fold_left add_step
             (map (fun x => (doc_url x, (rec_document (rec_of x), rec_metadata (rec_of x)))) ts) c).
Proof.
  intros Hne. unfold add_documents.
  remember (map doc_of ts) as ds eqn:Hds.
  destruct ds as [|d ds'].
  { symmetry in Hds. apply map_eq_nil in Hds. contradiction. }
  rewrite Hds.
  rewrite result_map_doc_of_url; cbn [rbind].
  rewrite result_map_doc_of_content; cbn [rbind].
  rewrite result_map_doc_of_meta; cbn [rbind].
  rewrite collection_add_fold.
  rewrite result_map_as_str_url; cbn [rbind].
  rewrite result_map_as_str_content; cbn [rbind].
  rewrite combine_doc_of. reflexivity.
Qed.

(** A URL given twice to [scrape_urls] gives two documents with the same
    [url], so handing the batch to [add_documents] raises
    [DuplicateIDError] and stores nothing, whatever the responses. *)
Theorem scrape_then_store_duplicate_url (net : nat -> string -> http_result)
        (delay : Z) (urls : list string) (c : collection) :
  has_dup urls = true ->
  exists docs,
    fst (scrape_urls net delay urls) = Ok docs /\
    add_documents c docs = Raise (DuplicateIDError "Expected IDs to be unique").
Proof.
  intros Hd. destruct (scrape_urls_docs_of net delay urls) as [ts [Hs Hm]].
  exists (map doc_of ts). split; [exact Hs|].
  rewrite add_documents_doc_of.
  - change (map (fun x => let '(u, _, _) := x in u) ts) with (map doc_url ts) in Hm.
    rewrite Hm, Hd. reflexivity.
  - intros ->. simpl in Hm. subst urls. discriminate.
Qed.

Lemma scrape_then_store_duplicate_url_witness :
  has_dup ["a"; "a"] = true /\
  exists docs,
    fst (scrape_urls (fun _ _ => TransportError "down") 1 ["a"; "a"]) = Ok docs /\
    add_documents [] docs = Raise (DuplicateIDError "Expected IDs to be unique").
Proof.
  split; [reflexivity|].
  apply (scrape_then_store_duplicate_url (fun _ _ => TransportError "down") 1 ["a"; "a"] []).
  reflexivity.
Defined.




Lemma client_get_set (cl : client) (name n : string) (c : collection) :
  client_get (client_set cl name c) n =
  if String.eqb name n then Some c else client_get cl n.
Proof.
  unfold client_set. simpl. destruct (String.eqb name n) eqn:E; [reflexivity|].
  induction cl as [|[m d] cl IH]; simpl; [reflexivity|].
  destruct (String.eqb m name) eqn:Em; simpl.
  - apply String.eqb_eq in Em. subst m. rewrite E. exact IH.
  - destruct (String.eqb m n); [reflexivity | exact IH].
Qed.

Lemma client_get_filter (cl : client) (name n : string) :
  client_get (filter (fun p => negb (String.eqb (fst p) name)) cl) n =
  if String.eqb name n then None else client_get cl n.
Proof.
  induction cl as [|[m d] cl IH]; simpl.
  - destruct (String.eqb name n); reflexivity.
  - destruct (String.eqb m name) eqn:Em; simpl.
    + apply String.eqb_eq in Em. subst m. rewrite IH.
      destruct (String.eqb name n); reflexivity.
    + rewrite IH. destruct (String.eqb m n) eqn:Emn, (String.eqb name n) eqn:En;
        try reflexivity.
      apply String.eqb_eq in Emn, En. subst. rewrite String.eqb_refl in Em. discriminate.
Qed.

Lemma client_get_init (cl : client) (name n : string) :
  client_get (initialize_collection cl name) n =
  if String.eqb name n then
    match client_get cl name with Some c => Some c | None => Some [] end
  else client_get cl n.
Proof.
  unfold initialize_collection. destruct (client_get cl name) eqn:E.
  - destruct (String.eqb name n) eqn:En; [|reflexivity].
    apply String.eqb_eq in En. subst. exact E.
  - apply client_get_set.
Qed.

(** Documents with distinct URLs not yet in the collection are stored as
    given: [get_all_documents] afterwards lists the previous records
    followed by exactly these URLs, contents and metadata, in order. *)
Theorem store_then_get_all (db : vector_db) (ts : list (string * pyval * string)) :
  Forall (fun x => meta_value_ok (doc_title x) = true) ts ->
  NoDup (map doc_url ts) ->
  Forall (fun u => id_present (vdb_collection db) u = false) (map doc_url ts) ->
  exists db',
    vdb_add_documents db (map doc_of ts) = Ok db' /\
    get_all_documents db' =
      let '(ids, documents, metadatas) := get_all_documents db in
      ((ids ++ map doc_url ts)%list,
       (documents ++ map (fun x => rec_document (rec_of x)) ts)%list,
       (metadatas ++ map (fun x => rec_metadata (rec_of x)) ts)%list).
Proof.
  intros Ht Hnd Hf.
  assert (Hadd : add_documents (vdb_collection db) (map doc_of ts) =
                 Ok (vdb_collection db ++ map rec_of ts)%list).
  { destruct ts as [|x ts'].
    - simpl. rewrite app_nil_r. reflexivity.
    - rewrite add_documents_doc_of; [|discriminate].
      assert (Hnd' : has_dup (map doc_url (x :: ts')) = false).
      { clear Hf. induction (map doc_url (x :: ts')) as [|u us IH]; [reflexivity|].
        inversion Hnd as [|? ? Hu Hus]; subst. simpl. rewrite (IH Hus).
        destruct (existsb (String.eqb u) us) eqn:Ee; [|reflexivity].
        apply existsb_exists in Ee as [v [Hv Euv]].
        apply String.eqb_eq in Euv. subst. contradiction. }
      rewrite Hnd'. rewrite (validate_metadatas_doc_of _ Ht). cbn [rbind]. f_equal.
      rewrite fold_add_step_fresh.
      + f_equal. rewrite map_map. apply map_ext. intros [[u t] c]. reflexivity.
      + rewrite map_map. exact Hnd.
      + rewrite map_map. exact Hf. }
  unfold vdb_add_documents. rewrite Hadd. cbn [rbind].
  eexists. split; [reflexivity|].
  assert (Hc : forall c', vdb_collection
                  (mk_vdb (client_set (vdb_client db) (vdb_name db) c') (vdb_name db)) = c').
  { intros c'. unfold vdb_collection. cbn [vdb_client vdb_name].
    rewrite client_get_set, String.eqb_refl. reflexivity. }
  unfold get_all_documents at 1. rewrite Hc.
  unfold get_all_documents. rewrite !map_app, !map_map.
  do 3 f_equal. apply map_ext. intros [[u t] c]. reflexivity.
Qed.

Lemma store_then_get_all_witness :
  Forall (fun x => meta_value_ok (doc_title x) = true) [("a", PStr "A", "x"); ("b", PStr "B", "y")] /\
  NoDup (map doc_url [("a", PStr "A", "x"); ("b", PStr "B", "y")]) /\
  Forall (fun u => id_present (vdb_collection (vdb_init [] "website_research")) u = false)
         (map doc_url [("a", PStr "A", "x"); ("b", PStr "B", "y")]) /\
  exists db',
    vdb_add_documents (vdb_init [] "website_research")
                      (map doc_of [("a", PStr "A", "x"); ("b", PStr "B", "y")]) = Ok db' /\
    get_all_documents db' =
      let '(ids, documents, metadatas) := get_all_documents (vdb_init [] "website_research") in
      ((ids ++ map doc_url [("a", PStr "A", "x"); ("b", PStr "B", "y")])%list,
       (documents ++ map (fun x => rec_document (rec_of x)) [("a", PStr "A", "x"); ("b", PStr "B", "y")])%list,
       (metadatas ++ map (fun x => rec_metadata (rec_of x)) [("a", PStr "A", "x"); ("b", PStr "B", "y")])%list).
Proof.
  assert (H1 : NoDup (map doc_url [("a", PStr "A", "x"); ("b", PStr "B", "y")])).
  { simpl. constructor; [simpl; intros [H|[]]; discriminate|].
    constructor; [intros []|constructor]. }
  assert (H2 : Forall (fun u => id_present (vdb_collection (vdb_init [] "website_research")) u = false)
                      (map doc_url [("a", PStr "A", "x"); ("b", PStr "B", "y")])).
  { simpl. repeat constructor. }
  assert (H0 : Forall (fun x => meta_value_ok (doc_title x) = true)
                      [("a", PStr "A", "x"); ("b", PStr "B", "y")]) by (repeat constructor).
  split; [exact H0|]. split; [exact H1|]. split; [exact H2|].
  apply (store_then_get_all (vdb_init [] "website_research") _ H0 H1 H2).
Defined.

(** [reset_collection] on a database set up by [__init__] succeeds,
    leaves the collection empty, and touches no other collection of the
    client. *)
Theorem reset_collection_empties (cl : client) (name : string) :
  exists db',
    reset_collection (vdb_init cl name) = Ok db' /\
    vdb_name db' = name /\
    get_all_documents db' = ([], [], []) /\
    forall n, n <> name -> client_get (vdb_client db') n = client_get cl n.
Proof.
  unfold reset_collection, client_delete. simpl vdb_client. simpl vdb_name.
  rewrite client_get_init, String.eqb_refl.
  assert (Hs : exists c0, match client_get cl name with
                          | Some c => Some c | None => Some [] end = Some c0)
    by (destruct (client_get cl name); eauto).
  destruct Hs as [c0 Hs]. rewrite Hs. cbn [rbind].
  eexists. split; [reflexivity|]. split; [reflexivity|]. split.
  - unfold get_all_documents, vdb_collection. simpl.
    rewrite client_get_init, String.eqb_refl, client_get_filter, String.eqb_refl.
    reflexivity.
  - intros n Hn. simpl.
    assert (E : String.eqb name n = false) by (apply String.eqb_neq; congruence).
    rewrite client_get_init, E, client_get_filter, E, client_get_init, E. reflexivity.
Qed.

Lemma reset_collection_empties_witness :
  exists db',
    reset_collection (vdb_init [("website_research", [mk_record "a" "x" []])] "website_research") = Ok db' /\
    vdb_name db' = "website_research" /\
    get_all_documents db' = ([], [], []) /\
    forall n, n <> "website_research" ->
      client_get (vdb_client db') n = client_get [("website_research", [mk_record "a" "x" []])] n.
Proof. apply (reset_collection_empties [("website_research", [mk_record "a" "x" []])]). Defined.

(** ** The agent *)



Lemma wait_run_all_pending (s : string) (ps : list string) :
  Forall (fun x => pending x = true) (s :: ps) -> wait_run s ps = None.
Proof.
  revert s. induction ps as [|p ps IH]; intros s H;
    inversion H as [|? ? Hs Hps]; subst; simpl; rewrite Hs; [reflexivity|].
  apply IH, Hps.
Qed.

(** The polling loop of [generate_summary] has no time limit: as long as
    the service reports ["queued"] or ["in_progress"], however many polls
    that takes, the method has not returned. *)
Theorem generate_summary_no_timeout (remote : string -> run_env)
        (content user_query : string) :
  Forall (fun s => pending s = true)
    (initial_status (remote (summary_prompt content user_query))
     :: polled_statuses (remote (summary_prompt content user_query))) ->
  generate_summary remote content user_query = None.
Proof.
  intros H. unfold generate_summary. rewrite (wait_run_all_pending _ _ H). reflexivity.
Qed.

Lemma generate_summary_no_timeout_witness :
  Forall (fun s => pending s = true)
    (initial_status (mk_run_env "queued" (repeat "in_progress" 100) [])
     :: polled_statuses (mk_run_env "queued" (repeat "in_progress" 100) [])) /\
  generate_summary (fun _ => mk_run_env "queued" (repeat "in_progress" 100) []) "c" "q" = None.
Proof.
  assert (H : Forall (fun s => pending s = true)
                (initial_status (mk_run_env "queued" (repeat "in_progress" 100) [])
                 :: polled_statuses (mk_run_env "queued" (repeat "in_progress" 100) []))).
  { simpl. repeat constructor. }
  split; [exact H|].
  apply (generate_summary_no_timeout (fun _ => mk_run_env "queued" (repeat "in_progress" 100) []) "c" "q").
  exact H.
Defined.

Lemma first_assistant_reply_app (pre : list message) (m : message) (ms : list message) :
  Forall (fun x => role x <> "assistant") pre -> role m = "assistant" ->
  first_assistant_reply (pre ++ m :: ms) = Some (first_text m).
Proof.
  intros Hpre Hm. induction pre as [|x pre IH]; simpl.
  - rewrite Hm. reflexivity.
  - inversion Hpre as [|? ? Hx Hpre']; subst.
    destruct (String.eqb (role x) "assistant") eqn:E.
    + apply String.eqb_eq in E. contradiction.
    + apply IH, Hpre'.
Qed.

(** On a completed run, [generate_summary] answers with the first
    assistant message of the thread, skipping the messages of other roles
    before it: its first content part's text, or, when that part is not a
    text block or the content is empty, an exception that escapes the
    method. *)
Theorem generate_summary_first_assistant (remote : string -> run_env)
        (content user_query : string) (pre : list message) (m : message)
        (ms : list message) :
  wait_run (initial_status (remote (summary_prompt content user_query)))
           (polled_statuses (remote (summary_prompt content user_query))) = Some "completed" ->
  thread_messages (remote (summary_prompt content user_query)) = (pre ++ m :: ms)%list ->
  Forall (fun x => role x <> "assistant") pre ->
  role m = "assistant" ->
  (forall v rest, parts m = TextPart v :: rest ->
     generate_summary remote content user_query = Some (Ok v)) /\
  (forall rest, parts m = ImagePart :: rest ->
     generate_summary remote content user_query =
       Some (Raise (AttributeError "'ImageFileContentBlock' object has no attribute 'text'"))) /\
  (parts m = [] ->
     generate_summary remote content user_query =
       Some (Raise (IndexError "list index out of range"))).
Proof.
  intros Hw Ht Hpre Hm.
  assert (Hg : generate_summary remote content user_query = Some (first_text m)).
  { unfold generate_summary. rewrite Hw. simpl. rewrite Ht.
    rewrite (first_assistant_reply_app pre m ms Hpre Hm). reflexivity. }
  rewrite Hg. unfold first_text.
  split; [intros v rest ->; reflexivity|].
  split; [intros rest ->; reflexivity | intros ->; reflexivity].
Qed.

Lemma generate_summary_first_assistant_witness :
  generate_summary
    (fun _ => mk_run_env "queued" ["in_progress"; "completed"]
                [mk_message "user" [TextPart "prompt"];
                 mk_message "assistant" [TextPart "summary"; TextPart "more"];
                 mk_message "assistant" [TextPart "older"]])
    "c" "q" = Some (Ok "summary").
Proof.
  assert (Hpre : Forall (fun x => role x <> "assistant") [mk_message "user" [TextPart "prompt"]]).
  { constructor; [simpl; discriminate | constructor]. }
  apply (proj1 (generate_summary_first_assistant
           (fun _ => mk_run_env "queued" ["in_progress"; "completed"]
                       [mk_message "user" [TextPart "prompt"];
                        mk_message "assistant" [TextPart "summary"; TextPart "more"];
                        mk_message "assistant" [TextPart "older"]])
           "c" "q" [mk_message "user" [TextPart "prompt"]]
           (mk_message "assistant" [TextPart "summary"; TextPart "more"])
           [mk_message "assistant" [TextPart "older"]]
           eq_refl eq_refl Hpre eq_refl) "summary" [TextPart "more"]).
  reflexivity.
Defined.

(** A URL whose request fails still reaches the model: its document
    enters the prompt as an ordinary source titled [Error], with the
    failure message as its content. *)
Theorem failed_fetch_in_prompt (url : string) (r : http_result) :
  request_fails r = true ->
  exists msg,
    scrape_url url r = Ok (mk_doc url (PStr "Error") ("Failed to scrape: " ++ msg)) /\
    combined_content [mk_doc url (PStr "Error") ("Failed to scrape: " ++ msg)] =
      Ok ("Source: Error (" ++ url ++ ")" ++ NL
          ++ py_prefix MAX_DOC_CHARS ("Failed to scrape: " ++ msg)).
Proof.
  intros Hf. unfold scrape_url. destruct r as [m|code reason body].
  - exists m. split; reflexivity.
  - simpl in Hf. destruct (raise_for_status_fails url reason code Hf) as [m Hm].
    exists m. simpl. rewrite Hm. split; reflexivity.
Qed.

Lemma failed_fetch_in_prompt_witness :
  request_fails (Response 404 "Not Found" []) = true /\
  exists msg,
    scrape_url "http://x" (Response 404 "Not Found" []) =
      Ok (mk_doc "http://x" (PStr "Error") ("Failed to scrape: " ++ msg)) /\
    combined_content [mk_doc "http://x" (PStr "Error") ("Failed to scrape: " ++ msg)] =
      Ok ("Source: Error (" ++ "http://x" ++ ")" ++ NL
          ++ py_prefix MAX_DOC_CHARS ("Failed to scrape: " ++ msg)).
Proof.
  split; [reflexivity|].
  apply (failed_fetch_in_prompt "http://x" (Response 404 "Not Found" [])). reflexivity.
Defined.

(** ** The coordinators *)

Ltac io_simpl :=
  cbv [io_bind io_call io_print io_ret banner io_try_except io_try_finally
       tool_cleanup research_websites cli_session fst snd] in *.

(** Every way the stages and the cleanup can turn out. *)
Ltac session_cases o urls query :=
  destruct (o_scrape o urls) as [docs|e1];
  [destruct (o_store o docs) as [[]|e2];
   [destruct (o_summary o docs query) as [s|e3]|]|];
  destruct (o_cleanup o) as [[]|e4];
  repeat match goal with
         | e : exc |- context [is_Exception ?e] =>
             let X := fresh "X" in destruct (is_Exception e) eqn:X
         end.

(** The stages of [research_websites] run in order, each at most once,
    and a stage that raises stops the ones after it. *)
Theorem research_session_stage_order (o : stage_outcomes) (urls : list string)
        (query : string) :
  filter is_stage (snd (research_session o urls query [])) =
  match o_scrape o urls with
  | Raise _ => [MScrape]
  | Ok docs =>
      match o_store o docs with
      | Raise _ => [MScrape; MStore]
      | Ok _ => [MScrape; MStore; MSummarize]
      end
  end.
Proof.
  unfold research_session. io_simpl. session_cases o urls query; cbn; reflexivity.
Qed.

(** The outcome of [main]'s [try]/[except]/[finally] block: an exception
    of the cleanup replaces everything. Otherwise the outcome is decided by
    the first stage that raises: an [Exception] is caught (and printed)
    and the block returns normally, anything else (a [KeyboardInterrupt])
    propagates; when no stage raises, the block returns normally. *)
Theorem research_session_outcome (o : stage_outcomes) (urls : list string)
        (query : string) :
  (forall e, o_cleanup o = Raise e -> fst (research_session o urls query []) = Raise e) /\
  (o_cleanup o = Ok tt ->
   fst (research_session o urls query []) =
     let escape (e : exc) : result unit := if is_Exception e then Ok tt else Raise e in
     match o_scrape o urls with
     | Raise e => escape e
     | Ok docs =>
         match o_store o docs with
         | Raise e => escape e
         | Ok _ =>
             match o_summary o docs query with
             | Raise e => escape e
             | Ok _ => Ok tt
             end
         end
     end).
Proof.
  unfold research_session. io_simpl. split.
  - intros e He. session_cases o urls query; cbn; try reflexivity; congruence.
  - intros Hc. session_cases o urls query; cbn; try discriminate;
      rewrite ?X, ?X0, ?X1; reflexivity.
Qed.

Lemma research_session_outcome_witness :
  fst (research_session
         (mk_outcomes (fun _ => Ok []) (fun _ => Raise KeyboardInterrupt)
                      (fun _ _ => Ok "s") (Ok tt)) [] "q" []) = Raise KeyboardInterrupt.
Proof.
  exact (proj2 (research_session_outcome
                  (mk_outcomes (fun _ => Ok []) (fun _ => Raise KeyboardInterrupt)
                               (fun _ _ => Ok "s") (Ok tt)) [] "q") eq_refl).
Defined.

Lemma try_finally_cleanup_snd {A} (body : PyIO A) (o : stage_outcomes)
      (tr0 : list run_event) :
  snd (io_try_finally body (tool_cleanup o) tr0) = (snd (body tr0) ++ [MCleanup])%list.
Proof.
  unfold io_try_finally, tool_cleanup, io_call.
  destruct (body tr0) as [r tr1]. destruct (o_cleanup o); reflexivity.
Qed.

Lemma cleanup_calls_snoc (tr : list run_event) (ev : run_event) :
  cleanup_calls (tr ++ [ev])%list = cleanup_calls tr + (if is_cleanup ev then 1 else 0).
Proof.
  unfold cleanup_calls. rewrite filter_app, length_app. simpl.
  destruct (is_cleanup ev); reflexivity.
Qed.

(** The session calls [Agent.cleanup()] once, as its last step. *)
Lemma research_session_cleanup (o : stage_outcomes) (urls : list string)
      (query : string) (tr0 : list run_event) :
  cleanup_calls (snd (research_session o urls query tr0)) = S (cleanup_calls tr0) /\
  last (snd (research_session o urls query tr0)) MInit = MCleanup.
Proof.
  unfold research_session. rewrite try_finally_cleanup_snd.
  split; [|apply last_last].
  rewrite cleanup_calls_snoc. simpl is_cleanup. rewrite Nat.add_1_r. f_equal.
  io_simpl. session_cases o urls query; cbn;
    rewrite ?cleanup_calls_snoc; cbn; rewrite ?Nat.add_0_r; reflexivity.
Qed.

(** [main.py]'s [main]: the assistant is cleaned up exactly once, as the
    last thing done, when the key is set and building [ResearchTool]
    succeeds; otherwise nothing is cleaned up and no stage runs, and an
    exception of the constructor escapes [main]. *)
Theorem main_cleanup_iff (env_key : option string) (o_init : result unit)
        (o : stage_outcomes) :
  cleanup_calls (snd (main env_key o_init o [])) =
    (if key_set env_key && result_ok o_init then 1 else 0) /\
  (key_set env_key && result_ok o_init = true ->
   last (snd (main env_key o_init o [])) MInit = MCleanup) /\
  (key_set env_key && result_ok o_init = false ->
   filter is_stage (snd (main env_key o_init o [])) = []) /\
  (forall e, key_set env_key = true -> o_init = Raise e ->
   fst (main env_key o_init o []) = Raise e).
Proof.
  unfold main, key_set.
  destruct env_key as [k|]; [destruct (nonempty k)|]; simpl;
    [|repeat split; discriminate..].
  destruct o_init as [[]|e]; simpl.
  - destruct (research_session_cleanup o example_urls example_query [MInit])
      as [Hc Hl].
    repeat split.
    + exact Hc.
    + intros _. exact Hl.
    + discriminate.
    + discriminate.
  - split; [reflexivity|]. split; [intros H; discriminate H|].
    split; [reflexivity|]. intros e' _ He'. exact He'.
Qed.

Lemma main_cleanup_iff_witness :
  fst (main (Some "sk") (Raise (ValueError "bad"))
            (mk_outcomes (fun _ => Ok []) (fun _ => Ok tt) (fun _ _ => Ok "s") (Ok tt)) []) =
    Raise (ValueError "bad").
Proof.
  apply (proj2 (proj2 (proj2 (main_cleanup_iff (Some "sk") (Raise (ValueError "bad"))
            (mk_outcomes (fun _ => Ok []) (fun _ => Ok tt) (fun _ _ => Ok "s") (Ok tt))))));
    reflexivity.
Defined.

(** ** [cli.py] *)

Lemma read_urls_spec (ls : list string) (b : string) (rest : list string) :
  Forall (fun x => nonempty (py_strip x) = true) ls ->
  nonempty (py_strip b) = false ->
  read_urls (ls ++ b :: rest) = Some (map py_strip ls) /\ read_urls ls = None.
Proof.
  intros Hls Hb. induction Hls as [|x ls Hx Hls IH]; simpl.
  - rewrite Hb. split; reflexivity.
  - rewrite Hx. destruct IH as [IH1 IH2]. rewrite IH1, IH2. split; reflexivity.
Qed.

(** [get_user_input] reads the query line, then URL lines up to the first
    line that is blank after [strip()]: what follows that line is never
    read. A blank query, or no URL before the blank line, gives
    [(None, None)]; input that ends before the blank line raises
    [EOFError] out of the function (a blank query stops before that). *)
Theorem get_user_input_reads (l b : string) (ls rest : list string) :
  Forall (fun x => nonempty (py_strip x) = true) ls ->
  nonempty (py_strip b) = false ->
  get_user_input (l :: ls ++ b :: rest) =
    Some (if nonempty (py_strip l) then
            match ls with
            | [] => None
            | _ => Some (py_strip l, map py_strip ls)
            end
          else None) /\
  get_user_input (l :: ls) = (if nonempty (py_strip l) then None else Some None).
Proof.
  intros Hls Hb. destruct (read_urls_spec ls b rest Hls Hb) as [H1 H2].
  unfold get_user_input. destruct (nonempty (py_strip l)); simpl; [|split; reflexivity].
  rewrite H1, H2. split; [|reflexivity].
  destruct ls; reflexivity.
Qed.

Lemma get_user_input_reads_witness :
  get_user_input ["  AI?  "; " http://a "; "http://b"; "   "; "ignored"] =
    Some (Some ("AI?", ["http://a"; "http://b"])) /\
  get_user_input ["  AI?  "; " http://a "; "http://b"] = None.
Proof.
  assert (Hls : Forall (fun x => nonempty (py_strip x) = true) [" http://a "; "http://b"]).
  { repeat constructor. }
  exact (get_user_input_reads "  AI?  " "   " [" http://a "; "http://b"] ["ignored"]
           Hls eq_refl).
Defined.

Lemma read_urls_nonempty (ls us : list string) :
  read_urls ls = Some us -> Forall (fun u => nonempty u = true) us.
Proof.
  revert us. induction ls as [|l ls IH]; intros us H; simpl in H; [discriminate|].
  destruct (nonempty (py_strip l)) eqn:E.
  - destruct (read_urls ls) as [us'|]; simpl in H; [|discriminate].
    injection H as <-. constructor; [exact E | apply IH; reflexivity].
  - injection H as <-. constructor.
Qed.

(** What [get_user_input] returns as [(query, urls)] is usable: the query
    is non-empty, there is at least one URL, and no URL is empty. *)
Theorem get_user_input_nonempty (lines : list string) (q : string)
        (us : list string) :
  get_user_input lines = Some (Some (q, us)) ->
  nonempty q = true /\ us <> [] /\ Forall (fun u => nonempty u = true) us.
Proof.
  unfold get_user_input. destruct lines as [|l ls]; [discriminate|].
  destruct (nonempty (py_strip l)) eqn:Eq; simpl; [|discriminate].
  destruct (read_urls ls) as [[|u us']|] eqn:Er; try discriminate.
  intros H. injection H as <- <-. split; [exact Eq|]. split; [discriminate|].
  apply (read_urls_nonempty ls), Er.
Qed.

Lemma get_user_input_nonempty_witness :
  get_user_input ["q"; "http://a"; ""] = Some (Some ("q", ["http://a"])) /\
  (nonempty "q" = true /\ ["http://a"] <> [] /\
   Forall (fun u => nonempty u = true) ["http://a"]).
Proof.
  split; [reflexivity|].
  apply (get_user_input_nonempty ["q"; "http://a"; ""]). reflexivity.
Defined.

(** The session of [cli.main] calls [Agent.cleanup()] once, as its last
    step. *)
Lemma cli_session_cleanup (o : stage_outcomes) (urls : list string)
      (query : string) (tr0 : list run_event) :
  cleanup_calls (snd (cli_session o urls query tr0)) = S (cleanup_calls tr0) /\
  last (snd (cli_session o urls query tr0)) MInit = MCleanup.
Proof.
  unfold cli_session. rewrite try_finally_cleanup_snd.
  split; [|apply last_last].
  rewrite cleanup_calls_snoc. simpl is_cleanup. rewrite Nat.add_1_r. f_equal.
  io_simpl. session_cases o urls query; cbn;
    rewrite ?cleanup_calls_snoc; cbn; rewrite ?Nat.add_0_r; reflexivity.
Qed.

(** [cli.main]: the assistant is cleaned up exactly once, as the last
    thing done, when the key is set, the input gives a query and URLs and
    building the components succeeds; in every other run that returns,
    nothing is cleaned up and no stage runs. *)
Theorem cli_main_cleanup (env_key : option string) (lines : list string)
        (o_init : result unit) (o : stage_outcomes) (r : result unit)
        (tr : list run_event) :
  cli_main env_key lines o_init o = Some (r, tr) ->
  cleanup_calls tr =
    (if key_set env_key
        && match get_user_input lines with Some (Some _) => true | _ => false end
        && result_ok o_init then 1 else 0) /\
  (cleanup_calls tr = 1 -> last tr MInit = MCleanup) /\
  (cleanup_calls tr = 0 -> filter is_stage tr = []).
Proof.
  unfold cli_main, key_set.
  destruct env_key as [k|]; [destruct (nonempty k)|]; simpl;
    [|intros H; cbv [io_print io_call] in H; inversion H; subst;
      repeat split; discriminate..].
  destruct (get_user_input lines) as [[[q us]|]|]; simpl; intros H;
    [|inversion H; subst; repeat split; discriminate | discriminate].
  destruct o_init as [[]|e]; simpl result_ok.
  - change ((_ <-- io_call MInit (Ok tt) ;; cli_session o us q) [])
      with (cli_session o us q [MInit]) in H.
    destruct (cli_session_cleanup o us q [MInit]) as [Hc Hl].
    destruct (cli_session o us q [MInit]) as [r' tr']. simpl in Hc, Hl.
    injection H as <- <-.
    rewrite Hc. split; [reflexivity|]. split; [intros _; exact Hl | discriminate].
  - cbv [io_bind io_call] in H. inversion H; subst. repeat split; discriminate.
Qed.

Lemma cli_main_cleanup_witness :
  cli_main (Some "sk") ["q"; "http://a"; ""] (Ok tt)
           (mk_outcomes (fun _ => Ok []) (fun _ => Ok tt) (fun _ _ => Ok "s") (Ok tt)) =
    Some (Ok tt, [MInit; MPrint "Scraping websites..."; MScrape;
                  MPrint "Storing content in vector database..."; MStore;
                  MPrint "Generating summary with OpenAI Agent..."; MSummarize;
                  MPrint "RESEARCH SUMMARY"; MPrint (NL ++ "Query: " ++ "q" ++ NL);
                  MPrint "s"; MCleanup]) /\
  cleanup_calls [MInit; MPrint "Scraping websites..."; MScrape;
                 MPrint "Storing content in vector database..."; MStore;
                 MPrint "Generating summary with OpenAI Agent..."; MSummarize;
                 MPrint "RESEARCH SUMMARY"; MPrint (NL ++ "Query: " ++ "q" ++ NL);
                 MPrint "s"; MCleanup] = 1.
Proof.
  assert (H : cli_main (Some "sk") ["q"; "http://a"; ""] (Ok tt)
           (mk_outcomes (fun _ => Ok []) (fun _ => Ok tt) (fun _ _ => Ok "s") (Ok tt)) =
    Some (Ok tt, [MInit; MPrint "Scraping websites..."; MScrape;
                  MPrint "Storing content in vector database..."; MStore;
                  MPrint "Generating summary with OpenAI Agent..."; MSummarize;
                  MPrint "RESEARCH SUMMARY"; MPrint (NL ++ "Query: " ++ "q" ++ NL);
                  MPrint "s"; MCleanup])) by reflexivity.
  split; [exact H|].
  exact (proj1 (cli_main_cleanup _ _ _ _ _ _ H)).
Defined.
